(** * Provider registry and configuration validation (stage-ui providers store)

    A shallow embedding of the providers store
    ([packages/stage-ui/src/stores/providers]) and of the provider settings
    pages that drive it.  JavaScript objects used as dictionaries are finite
    maps, the descriptor table is an association list in declaration order
    (the order [Object.keys] and [Object.values] enumerate it in), promises
    and [try]/[catch] are completions, and the reactive refs of a component
    are the fields of a state record. *)

From Stdlib Require Import ZArith String List Bool Lia.
From stdpp Require Import gmap strings list fin_maps pretty.
Import ListNotations.

Local Open Scope string_scope.
Local Open Scope Z_scope.

(** ** JavaScript values and completions *)

(** The values a provider configuration ([Record<string, unknown>]) holds:
    strings typed into the settings forms, a nested header object, and the
    primitive values [JSON.parse] can give back from the durable store.
    Numbers are restricted to integers. *)
#[warnings="-register-all"]
Inductive JsValue : Type :=
| VUndefined
| VNull
| VBool (b : bool)
| VNum (n : Z)
| VStr (s : string)
| VObj (props : list (string * JsValue)).

(** [!!v] of the source. *)
Definition truthy (v : JsValue) : bool :=
  match v with
  | VUndefined | VNull => false
  | VBool b => b
  | VNum n => negb (n =? 0)
  | VStr s => negb (String.eqb s "")
  | VObj _ => true
  end.

(** [a || b]. *)
Definition js_or (a b : JsValue) : JsValue := if truthy a then a else b.

(** A provider configuration object; reading an absent key gives
    [undefined]. *)
Abbreviation Config := (gmap string JsValue).

Definition prop (config : Config) (key : string) : JsValue :=
  default VUndefined (config !! key).

(** What a [throw] carries: an [Error] object (with its [name], which is
    ["Error"] for [new Error(..)] and ["TypeError"] for the errors the
    runtime raises on a property read of [undefined]) or any other value. *)
Inductive Thrown : Type :=
| ErrorObj (name message : string)
| ThrownValue (v : JsValue).

Definition new_Error (message : string) : Thrown := ErrorObj "Error" message.

(** [String(v)] on the values above. *)
Definition String_of_value (v : JsValue) : string :=
  match v with
  | VUndefined => "undefined"
  | VNull => "null"
  | VBool true => "true"
  | VBool false => "false"
  | VNum n => pretty n
  | VStr s => s
  | VObj _ => "[object Object]"
  end.

(** [String(e)] for a thrown value: [Error.prototype.toString]. *)
Definition String_of_thrown (e : Thrown) : string :=
  match e with
  | ErrorObj name message =>
      if String.eqb name "" then message
      else if String.eqb message "" then name
      else name ++ ": " ++ message
  | ThrownValue v => String_of_value v
  end.

(** The result of running a piece of code, or of awaiting a promise: it
    returns (resolves) or it throws (rejects). *)
Inductive Completion (A : Type) : Type :=
| Normal (a : A)
| Abrupt (e : Thrown).
Arguments Normal {A} a.
Arguments Abrupt {A} e.

Definition bindC {A B} (c : Completion A) (k : A -> Completion B) : Completion B :=
  match c with
  | Normal a => k a
  | Abrupt e => Abrupt e
  end.

Notation "x <- c ;;; k" := (bindC c (fun x => k))
  (at level 100, c at next level, right associativity).

(** [Array.prototype.join]. *)
Fixpoint join (sep : string) (l : list string) : string :=
  match l with
  | [] => ""
  | [s] => s
  | s :: rest => s ++ sep ++ join sep rest
  end.

(** A JavaScript string is modelled by its UTF-8 encoding.
    [String.prototype.trim] strips the white space and the line
    terminators of the language from both ends: U+0009 to U+000D, U+0020,
    U+00A0, U+1680, U+2000 to U+200A, U+2028, U+2029, U+202F, U+205F,
    U+3000 and U+FEFF.  [is_space] has the ones of one byte, [is_space2]
    the one of two bytes (U+00A0 is C2 A0), [is_space3] those of three
    bytes. *)
Definition is_space (c : Ascii.ascii) : bool :=
  let n := Ascii.nat_of_ascii c in
  ((9 <=? n)%nat && (n <=? 13)%nat) || (n =? 32)%nat.

Definition is_space2 (c1 c2 : Ascii.ascii) : bool :=
  (Ascii.nat_of_ascii c1 =? 194)%nat && (Ascii.nat_of_ascii c2 =? 160)%nat.

Definition is_space3 (c1 c2 c3 : Ascii.ascii) : bool :=
  let n1 := Ascii.nat_of_ascii c1 in
  let n2 := Ascii.nat_of_ascii c2 in
  let n3 := Ascii.nat_of_ascii c3 in
  (* U+1680: E1 9A 80 *)
  ((n1 =? 225)%nat && (n2 =? 154)%nat && (n3 =? 128)%nat)
  (* U+2000 to U+200A: E2 80 80 to E2 80 8A; U+2028, U+2029: E2 80 A8, A9;
     U+202F: E2 80 AF *)
  || ((n1 =? 226)%nat && (n2 =? 128)%nat
      && (((128 <=? n3)%nat && (n3 <=? 138)%nat)
          || (n3 =? 168)%nat || (n3 =? 169)%nat || (n3 =? 175)%nat))
  (* U+205F: E2 81 9F *)
  || ((n1 =? 226)%nat && (n2 =? 129)%nat && (n3 =? 159)%nat)
  (* U+3000: E3 80 80 *)
  || ((n1 =? 227)%nat && (n2 =? 128)%nat && (n3 =? 128)%nat)
  (* U+FEFF: EF BB BF *)
  || ((n1 =? 239)%nat && (n2 =? 187)%nat && (n3 =? 191)%nat).

Fixpoint trim_start (s : string) : string :=
  match s with
  | String c1 rest1 =>
      if is_space c1 then trim_start rest1
      else
        match rest1 with
        | String c2 rest2 =>
            if is_space2 c1 c2 then trim_start rest2
            else
              match rest2 with
              | String c3 rest3 => if is_space3 c1 c2 c3 then trim_start rest3 else s
              | EmptyString => s
              end
        | EmptyString => s
        end
  | EmptyString => EmptyString
  end.

(** [reverse_onto s acc]: the bytes of [s] in reverse order, then [acc]. *)
Fixpoint reverse_onto (s acc : string) : string :=
  match s with
  | String c rest => reverse_onto rest (String c acc)
  | EmptyString => acc
  end.

(** [trim_start] on a reversed string, where the bytes of a character come
    last byte first. *)
Fixpoint trim_start_reversed (s : string) : string :=
  match s with
  | String c1 rest1 =>
      if is_space c1 then trim_start_reversed rest1
      else
        match rest1 with
        | String c2 rest2 =>
            if is_space2 c2 c1 then trim_start_reversed rest2
            else
              match rest2 with
              | String c3 rest3 =>
                  if is_space3 c3 c2 c1 then trim_start_reversed rest3 else s
              | EmptyString => s
              end
        | EmptyString => s
        end
  | EmptyString => EmptyString
  end.

Definition trim_end (s : string) : string :=
  reverse_onto (trim_start_reversed (reverse_onto s EmptyString)) EmptyString.

Definition trim (s : string) : string := trim_end (trim_start s).

(** ** The data model of the store *)

Inductive Category : Type := chat | embed | speech | transcription.

Module ValidationResult.
Record t : Type := mk {
  errors : list Thrown;
  reason : string;
  valid : bool
}.
End ValidationResult.

Module ModelInfo.
Record t : Type := mk {
  id : string;
  name : string;
  provider : string;
  description : option string;
  capabilities : option (list string);
  contextLength : option Z;
  deprecated : option bool
}.
End ModelInfo.

(** A descriptor of the table.  The hooks that reach the network or the
    environment ([isAvailableBy], [listModels], [validateProviderConfig])
    are given by the completion of the call.  [createProvider],
    [listVoices] and [loadModel] are not read by the operations below. *)
Module ProviderMetadata.
Record t : Type := mk {
  id : string;
  category : Category;
  nameKey : string;
  name : string;
  descriptionKey : string;
  description : string;
  isAvailableBy : option (Completion bool);
  defaultOptions : option (unit -> Config);
  listModels : option (Config -> Completion (list ModelInfo.t));
  validateProviderConfig : Config -> Completion ValidationResult.t
}.
End ProviderMetadata.

(** The refs of the store. *)
Record Store : Type := mkStore {
  providerCredentials : gmap string Config;
  configuredProviders : gmap string bool;
  availableModels : gmap string (list ModelInfo.t);
  isLoadingModels : gmap string bool;
  modelLoadError : gmap string (option string)
}.

Definition set_providerCredentials (f : gmap string Config -> gmap string Config)
    (st : Store) : Store :=
  mkStore (f (providerCredentials st)) (configuredProviders st)
          (availableModels st) (isLoadingModels st) (modelLoadError st).

Definition set_configuredProviders (f : gmap string bool -> gmap string bool)
    (st : Store) : Store :=
  mkStore (providerCredentials st) (f (configuredProviders st))
          (availableModels st) (isLoadingModels st) (modelLoadError st).

Definition set_availableModels
    (f : gmap string (list ModelInfo.t) -> gmap string (list ModelInfo.t))
    (st : Store) : Store :=
  mkStore (providerCredentials st) (configuredProviders st)
          (f (availableModels st)) (isLoadingModels st) (modelLoadError st).

Definition set_isLoadingModels (f : gmap string bool -> gmap string bool)
    (st : Store) : Store :=
  mkStore (providerCredentials st) (configuredProviders st)
          (availableModels st) (f (isLoadingModels st)) (modelLoadError st).

Definition set_modelLoadError
    (f : gmap string (option string) -> gmap string (option string))
    (st : Store) : Store :=
  mkStore (providerCredentials st) (configuredProviders st)
          (availableModels st) (isLoadingModels st) (f (modelLoadError st)).

Definition emptyStore : Store := mkStore ∅ ∅ ∅ ∅ ∅.

(** [obj[key]] on a plain object finds an own property first and, when
    there is none, what [Object.prototype] has under that name: a function
    for each of these names ([Object.prototype] itself for ["__proto__"]),
    which is truthy.  The finite maps of the model hold the own
    properties.  [validateProvider], [initializeProvider] and
    [getProviderInstance] are described for any id their caller may pass,
    these names included; the other operations are described for the ids
    of providers, none of which is such a name. *)
Definition inheritedName (key : string) : bool :=
  existsb (String.eqb key)
    ["constructor"; "__defineGetter__"; "__defineSetter__"; "hasOwnProperty";
     "__lookupGetter__"; "__lookupSetter__"; "isPrototypeOf"; "propertyIsEnumerable";
     "toString"; "valueOf"; "__proto__"; "toLocaleString"].

(** [providerCredentials] is the ref that [useLocalStorage] returns; its
    value is a reactive proxy, and the proxy answers a read of one of the
    names Vue keeps for its own flags (['__v_isReactive'], ['__v_raw'],
    ['__v_isReadonly'], ...) itself, whatever is stored.  No provider id
    has such a name and the model does not describe those reads: the
    statements about an arbitrary id that depend on what the guard
    [providerCredentials.value[providerId]] finds leave the names with
    this prefix out. *)
Definition reactiveFlagName (key : string) : bool :=
  String.prefix "__v_" key.

(** The error the runtime raises for [metadata.validators.validateProviderConfig]
    when [metadata] is an inherited value, which has no [validators]. *)
Definition TypeError_validators : Thrown :=
  ErrorObj "TypeError" "Cannot read properties of undefined (reading 'validateProviderConfig')".

(** The error the runtime raises for the call [metadata.createProvider(config)]
    when [metadata] is an inherited value, which has no [createProvider]. *)
Definition TypeError_createProvider : Thrown :=
  ErrorObj "TypeError" "metadata.createProvider is not a function".

(** The error the runtime raises for [metadata.defaultOptions] when
    [metadata] is [undefined]. *)
Definition TypeError_defaultOptions : Thrown :=
  ErrorObj "TypeError" "Cannot read properties of undefined (reading 'defaultOptions')".

(** [const isAvailableBy = p.isAvailableBy || (() => true)] followed by
    [await isAvailableBy()]. *)
Definition awaitIsAvailableBy (descriptor : ProviderMetadata.t) : Completion bool :=
  match ProviderMetadata.isAvailableBy descriptor with
  | Some call => call
  | None => Normal true
  end.

(** ** The store's operations over a descriptor table *)

Section Store.

(** The table [providerMetadata], in declaration order. *)
Variable providerMetadata : list (string * ProviderMetadata.t).

(** [providerMetadata[providerId]]. *)
Fixpoint lookupTable (table : list (string * ProviderMetadata.t)) (providerId : string)
    : option ProviderMetadata.t :=
  match table with
  | [] => None
  | (key, metadata) :: rest =>
      if String.eqb key providerId then Some metadata else lookupTable rest providerId
  end.

Definition metadataOf (providerId : string) : option ProviderMetadata.t :=
  lookupTable providerMetadata providerId.

(** [validateProvider]: [false] when the config or the descriptor is
    missing; otherwise the hook is awaited, an invalid result is thrown
    as [new Error(reason)] and a valid one returned.  The keys of the
    table are provider ids, none of which is an [inheritedName].  For an
    id that is one, a lookup with no own entry gives the inherited value:
    it passes the guard, as a config it has none of the properties a hook
    reads, and as a descriptor it has no [validators], so that reading
    the hook throws. *)
Definition validateProvider (providerId : string) (st : Store) : Completion bool :=
  let validate (metadata : ProviderMetadata.t) (config : Config) : Completion bool :=
    validationResult <- ProviderMetadata.validateProviderConfig metadata config ;;;
    if negb (ValidationResult.valid validationResult)
    then Abrupt (new_Error (ValidationResult.reason validationResult))
    else Normal (ValidationResult.valid validationResult) in
  match providerCredentials st !! providerId with
  | None =>
      if inheritedName providerId then
        match metadataOf providerId with
        | Some metadata => validate metadata ∅
        | None => Abrupt TypeError_validators
        end
      else Normal false
  | Some config =>
      match metadataOf providerId with
      | Some metadata => validate metadata config
      | None =>
          if inheritedName providerId then Abrupt TypeError_validators else Normal false
      end
  end.

(** [initializeProvider]: an absent entry is seeded with the default base
    URL; the descriptor is read without a guard.  For an id that is not a
    key of the table and is an [inheritedName], the guard reads the
    inherited value, which is truthy, and nothing is done. *)
Definition initializeProvider (providerId : string) (st : Store) : Completion Store :=
  match providerCredentials st !! providerId with
  | Some _ => Normal st
  | None =>
      match metadataOf providerId with
      | None =>
          if inheritedName providerId then Normal st else Abrupt TypeError_defaultOptions
      | Some metadata =>
          let defaultOptions : Config :=
            match ProviderMetadata.defaultOptions metadata with
            | Some f => f tt
            | None => ∅
            end in
          Normal (set_providerCredentials
                    <[providerId := {[ "baseUrl" := js_or (prop defaultOptions "baseUrl") (VStr "") ]}]>
                    st)
      end
  end.

(** One branch of [updateConfigurationStatus]: the [try]/[catch] around
    [validateProvider]. *)
Definition updateStatusOf (providerId : string) (st : Store) : Store :=
  match validateProvider providerId st with
  | Normal b => set_configuredProviders <[providerId := b]> st
  | Abrupt _ => set_configuredProviders <[providerId := false]> st
  end.

(** [updateConfigurationStatus]: every key of the table; each branch
    reads the credentials and writes its own key of
    [configuredProviders]. *)
Definition updateConfigurationStatus (st : Store) : Store :=
  fold_left (fun s key => updateStatusOf key s) (map fst providerMetadata) st.

(** Store creation: [Object.keys(providerMetadata).forEach(initializeProvider)],
    then the immediate run of the status watcher.  [persisted] is the
    value [useLocalStorage] reads, taken to be a map from ids to config
    objects (the default is the empty one); for a persisted JSON value of
    another shape, such as [null] or a string, the source throws on the
    first key, which is outside this model. *)
Fixpoint initializeAll (keys : list string) (st : Store) : Completion Store :=
  match keys with
  | [] => Normal st
  | key :: rest => st' <- initializeProvider key st ;;; initializeAll rest st'
  end.

Definition createStore (persisted : gmap string Config) : Completion Store :=
  st <- initializeAll (map fst providerMetadata) (set_providerCredentials (fun _ => persisted) emptyStore) ;;;
  Normal (updateConfigurationStatus st).

(** *** Model discovery *)

(** The object built for each model in [fetchModelsForProvider]: six
    fields, [provider] overridden. *)
Definition transformModel (providerId : string) (model : ModelInfo.t) : ModelInfo.t :=
  ModelInfo.mk (ModelInfo.id model) (ModelInfo.name model) providerId
               (ModelInfo.description model) None
               (ModelInfo.contextLength model) (ModelInfo.deprecated model).

(** [error instanceof Error ? error.message : 'Unknown error']. *)
Definition errorMessage (error : Thrown) : string :=
  match error with
  | ErrorObj _ message => message
  | ThrownValue _ => "Unknown error"
  end.

(** [fetchModelsForProvider] up to its [await]: the two guards, the two
    writes, and the call of [listModels], whose promise is returned as
    the pending completion ([None]: the function has returned [[]]). *)
Definition fetchModels_begin (providerId : string) (st : Store)
    : option (Completion (list ModelInfo.t)) * Store :=
  match providerCredentials st !! providerId with
  | None => (None, st)
  | Some config =>
      match metadataOf providerId with
      | None => (None, st)
      | Some metadata =>
          let st1 := set_isLoadingModels <[providerId := true]> st in
          let st2 := set_modelLoadError <[providerId := None]> st1 in
          (Some (match ProviderMetadata.listModels metadata with
                 | Some listModels => listModels config
                 | None => Normal []
                 end), st2)
      end
  end.

(** [fetchModelsForProvider] from the [await] on: the rest of the [try]
    block or the [catch] block, then [finally]. *)
Definition fetchModels_settle (providerId : string)
    (models : Completion (list ModelInfo.t)) (st : Store)
    : list ModelInfo.t * Store :=
  match models with
  | Normal models =>
      let stored := map (transformModel providerId) models in
      (stored,
       set_isLoadingModels <[providerId := false]>
         (set_availableModels <[providerId := stored]> st))
  | Abrupt error =>
      ([],
       set_isLoadingModels <[providerId := false]>
         (set_modelLoadError <[providerId := Some (errorMessage error)]> st))
  end.

(** [fetchModelsForProvider] run to completion with nothing in between. *)
Definition fetchModelsForProvider (providerId : string) (st : Store)
    : list ModelInfo.t * Store :=
  match fetchModels_begin providerId st with
  | (None, st') => ([], st')
  | (Some pending, st') => fetchModels_settle providerId pending st'
  end.

(** [getModelsForProvider]. *)
Definition getModelsForProvider (providerId : string) (st : Store) : list ModelInfo.t :=
  default [] (availableModels st !! providerId).

(** *** The watcher that refetches models when credentials change *)

(** [JSON.stringify] of a config object. *)
Variable stringify : Config -> string.

(** [JSON.stringify(x)] where [x] may be [undefined] (the result is then
    [undefined] too). *)
Definition stringifyEntry (entry : option Config) : option string :=
  stringify <$> entry.

(** [Object.keys(newCreds).filter(..)].  The keys come in the order of the
    finite map; the loop over them writes to a different key for each. *)
Definition changedProviders (newCreds : gmap string Config)
    (oldCreds : option (gmap string Config)) : list string :=
  filter (fun providerId =>
            stringifyEntry (newCreds !! providerId)
            ≠ stringifyEntry (oldCreds ≫= (fun o => o !! providerId)))
         (map fst (map_to_list newCreds)).

(** The condition of the [if] in the watcher's loop. *)
Definition shouldRefetch (st : Store) (providerId : string) : bool :=
  default false (configuredProviders st !! providerId)
  && match metadataOf providerId with
     | Some metadata => bool_decide (is_Some (ProviderMetadata.listModels metadata))
     | None => false
     end.

(** The providers the watcher calls [fetchModelsForProvider] for. *)
Definition fetchTargets (st : Store) (oldCreds : option (gmap string Config)) : list string :=
  filter (fun providerId => shouldRefetch st providerId = true)
         (changedProviders (providerCredentials st) oldCreds).

(** The calls are not awaited: each runs up to its [await] inside the
    loop and its promise is left pending. *)
Fixpoint beginFetches (targets : list string) (st : Store)
    : list (string * Completion (list ModelInfo.t)) * Store :=
  match targets with
  | [] => ([], st)
  | providerId :: rest =>
      match fetchModels_begin providerId st with
      | (None, st') => beginFetches rest st'
      | (Some pending, st') =>
          let '(pendings, st'') := beginFetches rest st' in
          ((providerId, pending) :: pendings, st'')
      end
  end.

(** The watcher's callback; [newCreds] is the current value of the ref. *)
Definition onCredentialsChanged (oldCreds : option (gmap string Config)) (st : Store)
    : list (string * Completion (list ModelInfo.t)) * Store :=
  beginFetches (fetchTargets st oldCreds) st.

(** The pending fetches settle later, in some order. *)
Definition settleFetches (pendings : list (string * Completion (list ModelInfo.t)))
    (st : Store) : Store :=
  fold_left (fun s '(providerId, pending) => snd (fetchModels_settle providerId pending s))
            pendings st.

(** *** Localized metadata and the availability filter *)

(** The localization lookup [t(key, fallback)]. *)
Variable t : string -> string -> string.

Record LocalizedMetadata : Type := mkLocalized {
  metadata : ProviderMetadata.t;
  localizedName : string;
  localizedDescription : string;
  configured : option bool
}.

Definition notFound (providerId : string) : Thrown :=
  new_Error ("Provider metadata for " ++ providerId ++ " not found").

(** [getProviderMetadata]. *)
Definition getProviderMetadata (providerId : string) : Completion LocalizedMetadata :=
  match metadataOf providerId with
  | None => Abrupt (notFound providerId)
  | Some metadata =>
      Normal (mkLocalized metadata
                (t (ProviderMetadata.nameKey metadata) (ProviderMetadata.name metadata))
                (t (ProviderMetadata.descriptionKey metadata) (ProviderMetadata.description metadata))
                None)
  end.

(** [allProvidersMetadata]. *)
Definition allProvidersMetadata (st : Store) : list LocalizedMetadata :=
  map (fun entry : string * ProviderMetadata.t =>
         let metadata := snd entry in
         mkLocalized metadata
           (t (ProviderMetadata.nameKey metadata) (ProviderMetadata.name metadata))
           (t (ProviderMetadata.descriptionKey metadata) (ProviderMetadata.description metadata))
           (Some (default false (configuredProviders st !! ProviderMetadata.id metadata))))
      providerMetadata.

(** The [for] loop of [availableProvidersMetadata].  [providers] is the
    array built so far; [called] records, in order, the ids whose
    availability predicate has been called. *)
Fixpoint availableLoop (todo providers : list LocalizedMetadata) (called : list string)
    : Completion (list LocalizedMetadata) * list string :=
  match todo with
  | [] => (Normal providers, called)
  | provider :: rest =>
      let providerId := ProviderMetadata.id (metadata provider) in
      match getProviderMetadata providerId with
      | Abrupt e => (Abrupt e, called)
      | Normal p =>
          match awaitIsAvailableBy (metadata p) with
          | Abrupt e => (Abrupt e, (called ++ [providerId])%list)
          | Normal isAvailable =>
              availableLoop rest
                (if isAvailable then (providers ++ [provider])%list else providers)
                (called ++ [providerId])%list
          end
      end
  end.

(** The async callback given to [computedAsync]. *)
Definition availableProvidersCallback (st : Store)
    : Completion (list LocalizedMetadata) * list string :=
  availableLoop (allProvidersMetadata st) [] [].

(** [computedAsync(callback, [])]: the ref takes the resolved value; when
    the callback rejects the ref keeps the value it had. *)
Definition computedAsync {A} (current : A) (evaluated : Completion A) : A :=
  match evaluated with
  | Normal value => value
  | Abrupt _ => current
  end.

Definition availableProvidersMetadata (st : Store) : list LocalizedMetadata :=
  computedAsync [] (fst (availableProvidersCallback st)).

End Store.

(** ** Descriptors of the table *)

(** The response of the reachability probe: [response.ok] and
    [response.statusText]. *)
Record Response : Type := mkResponse {
  ok : bool;
  statusText : string
}.

(** [s.trim()] on a value: a method of strings only. *)
Definition trim_value (v : JsValue) : Completion string :=
  match v with
  | VStr s => Normal (trim s)
  | _ => Abrupt (ErrorObj "TypeError" "trim is not a function")
  end.

(** [cond && new Error(message)]: [false] or the error. *)
Definition and_Error (cond : bool) (message : string) : option Thrown :=
  if cond then Some (new_Error message) else None.

(** [.filter(Boolean)] on an array of [false] or errors. *)
Definition filter_Boolean (l : list (option Thrown)) : list Thrown :=
  omap (fun e => e) l.

(** [errors.filter(e => e).map(e => String(e)).join(', ') || '']. *)
Definition reasonOf (errors : list Thrown) : string :=
  join ", " (map String_of_thrown errors).

(** The value of the computed [notBaseUrlError]. *)
Definition notBaseUrlError : ValidationResult.t :=
  ValidationResult.mk [new_Error "Base URL is not absolute"]
                      "Base URL is not absolute. Check your input."
                      false.

Section Descriptors.

(** [isAbsoluteUrl] of [utils/string], applied to whatever value the
    config holds (the cast to [string] is erased at run time). *)
Variable isAbsoluteUrl : JsValue -> bool.

(** The vendor's model listing for a provider id and a config. *)
Variable vendorListModels : string -> Config -> Completion (list ModelInfo.t).

(** The global [fetch], by the completion of the request for a URL and
    headers. *)
Variable fetch : string -> JsValue -> Completion Response.

Definition openrouter_validateProviderConfig (config : Config) : ValidationResult.t :=
  let errors := filter_Boolean [
    and_Error (negb (truthy (prop config "apiKey"))) "API key is required";
    and_Error (negb (truthy (prop config "baseUrl"))) "Base URL is required"
  ] in
  if truthy (prop config "baseUrl") && negb (isAbsoluteUrl (prop config "baseUrl"))
  then notBaseUrlError
  else ValidationResult.mk errors (reasonOf errors)
         (truthy (prop config "apiKey") && truthy (prop config "baseUrl")).

Definition openrouter_ai : ProviderMetadata.t :=
  ProviderMetadata.mk "openrouter-ai" chat
    "settings.pages.providers.provider.openrouter.title" "OpenRouter"
    "settings.pages.providers.provider.openrouter.description" "openrouter.ai"
    None
    (Some (fun _ => {[ "baseUrl" := VStr "https://openrouter.ai/api/v1/" ]}))
    (Some (vendorListModels "openrouter-ai"))
    (fun config => Normal (openrouter_validateProviderConfig config)).

Definition ollama_validateProviderConfig (config : Config) : Completion ValidationResult.t :=
  if negb (truthy (prop config "baseUrl")) then
    Normal (ValidationResult.mk [new_Error "Base URL is required."]
              "Base URL is required. Default to http://localhost:11434/v1/ for Ollama."
              false)
  else if negb (isAbsoluteUrl (prop config "baseUrl")) then
    Normal notBaseUrlError
  else
    baseUrl <- trim_value (prop config "baseUrl") ;;;
    match fetch (baseUrl ++ "models") (js_or (prop config "headers") VUndefined) with
    | Normal response =>
        let errors := filter_Boolean [
          and_Error (negb (ok response))
            ("Ollama server returned non-ok status code: " ++ statusText response)
        ] in
        Normal (ValidationResult.mk errors (reasonOf errors) (ok response))
    | Abrupt err =>
        Normal (ValidationResult.mk [err]
                  ("Failed to reach Ollama server, error: " ++ String_of_thrown err
                   ++ " occurred.

If you are using Ollama locally, this is likely the CORS (Cross-Origin Resource Sharing) security issue, where you will need to set OLLAMA_ORIGINS=* or OLLAMA_ORIGINS=https://airi.moeru.ai,http://localhost environment variable before launching Ollama server to make this work.")
                  false)
    end.

Definition ollama : ProviderMetadata.t :=
  ProviderMetadata.mk "ollama" chat
    "settings.pages.providers.provider.ollama.title" "Ollama"
    "settings.pages.providers.provider.ollama.description" "ollama.com"
    None
    (Some (fun _ => {[ "baseUrl" := VStr "http://localhost:11434/v1/" ]}))
    (Some (vendorListModels "ollama"))
    ollama_validateProviderConfig.

Definition xai_validateProviderConfig (config : Config) : ValidationResult.t :=
  let errors := filter_Boolean [
    and_Error (negb (truthy (prop config "apiKey"))) "API key is required.";
    and_Error (negb (truthy (prop config "baseUrl"))) "Base URL is required."
  ] in
  ValidationResult.mk errors (reasonOf errors)
    (truthy (prop config "apiKey") && truthy (prop config "baseUrl")).

Definition xai : ProviderMetadata.t :=
  ProviderMetadata.mk "xai" chat
    "settings.pages.providers.provider.xai.title" "xAI"
    "settings.pages.providers.provider.xai.description" "x.ai"
    None
    None
    (Some (vendorListModels "xai"))
    (fun config => Normal (xai_validateProviderConfig config)).

(** Three entries of the table, in their order of declaration. *)
Definition tableExcerpt : list (string * ProviderMetadata.t) :=
  [("openrouter-ai", openrouter_ai); ("ollama", ollama); ("xai", xai)].

End Descriptors.

(** Modelled from the spec: [isAbsoluteUrl] of [utils/string] is not among
    the sources; the specification describes an absolute URL as one with
    "scheme + host present".  A string qualifies when ["://"] occurs in it
    after a non-empty scheme and before a non-empty rest. *)
Definition isAbsoluteUrl_spec (v : JsValue) : bool :=
  match v with
  | VStr s =>
      match String.index 0 "://" s with
      | Some n => (0 <? n)%nat && (n + 3 <? String.length s)%nat
      | None => false
      end
  | _ => false
  end.

(** ** A provider settings page *)

(** What an object spread [{...x}] can be applied to here: the value of
    [providerMetadata.value?.defaultOptions], which is [undefined] or the
    function of the descriptor, besides a plain object. *)
Inductive SpreadSource : Type :=
| SpreadUndefined
| SpreadFunction (f : unit -> Config)
| SpreadObject (o : Config).

(** [{...x}] copies the own enumerable properties of [x]: those of an
    object, none for [undefined], none for an arrow function (its [name]
    and [length] are not enumerable).  The function is not called. *)
Definition spread (x : SpreadSource) : Config :=
  match x with
  | SpreadUndefined => ∅
  | SpreadFunction _ => ∅
  | SpreadObject o => o
  end.

(** The refs of the page, the store it shares, and the asynchronous work
    it has started: [awaited] holds, for each [validateConfiguration] call
    suspended at its [await], the completion of the hook's promise;
    [timers] holds, for each completion handler registered with
    [setTimeout] and not yet run, its [finalValidationMessage]. *)
Record Page : Type := mkPage {
  store : Store;
  isValidating : Z;
  isValid : bool;
  validationMessage : string;
  awaited : list (Completion ValidationResult.t);
  timers : list string
}.

Definition set_store (f : Store -> Store) (page : Page) : Page :=
  mkPage (f (store page)) (isValidating page) (isValid page)
         (validationMessage page) (awaited page) (timers page).

Definition set_isValidating (f : Z -> Z) (page : Page) : Page :=
  mkPage (store page) (f (isValidating page)) (isValid page)
         (validationMessage page) (awaited page) (timers page).

Definition set_isValid (b : bool) (page : Page) : Page :=
  mkPage (store page) (isValidating page) b
         (validationMessage page) (awaited page) (timers page).

Definition set_validationMessage (message : string) (page : Page) : Page :=
  mkPage (store page) (isValidating page) (isValid page)
         message (awaited page) (timers page).

Definition set_awaited
    (f : list (Completion ValidationResult.t) -> list (Completion ValidationResult.t))
    (page : Page) : Page :=
  mkPage (store page) (isValidating page) (isValid page)
         (validationMessage page) (f (awaited page)) (timers page).

Definition set_timers (f : list string -> list string) (page : Page) : Page :=
  mkPage (store page) (isValidating page) (isValid page)
         (validationMessage page) (awaited page) (f (timers page)).

(** The validation calls that have incremented the counter and whose
    completion handler has not run. *)
Definition inFlight (page : Page) : nat :=
  (length (awaited page) + length (timers page))%nat.

(** What can happen to a mounted page. *)
Inductive Event : Type :=
| Mounted
| SetApiKey (value : JsValue)
| SetBaseUrl (value : JsValue)
| WatchFired
| DebounceFired
| HookSettled (i : nat)
| TimerFired (i : nat)
| ResetClicked.

Section SettingsPage.

Variable providerMetadata : list (string * ProviderMetadata.t).
Variable t : string -> string -> string.

(** [t('settings.dialogs.onboarding.validationError', { error })]. *)
Variable tValidationError : string -> string.

(** The page's [providerId] constant (['xai'] in the xAI page, ['ollama']
    in the Ollama page). *)
Variable providerId : string.

(** The computed [providerMetadata] of the page. *)
Definition pageMetadata : Completion LocalizedMetadata :=
  getProviderMetadata providerMetadata t providerId.

(** [providers.value[providerId]?.key || '']. *)
Definition field (key : string) (page : Page) : JsValue :=
  js_or (match providerCredentials (store page) !! providerId with
         | Some config => prop config key
         | None => VUndefined
         end)
        (VStr "").

(** The setter of the computed [apiKey] and [baseUrl]. *)
Definition setField (key : string) (value : JsValue) (page : Page) : Page :=
  set_store (set_providerCredentials (fun providers =>
    <[providerId := <[key := value]> (default ∅ (providers !! providerId))]> providers))
    page.

(** [try] rest, [catch] and [finally] of [validateConfiguration]. *)
Definition settled (outcome : Completion ValidationResult.t) (page : Page) : Page :=
  let '(valid, finalValidationMessage) :=
    match outcome with
    | Normal validationResult =>
        (ValidationResult.valid validationResult,
         if negb (ValidationResult.valid validationResult)
         then ValidationResult.reason validationResult
         else "")
    | Abrupt error =>
        (false,
         tValidationError (match error with
                           | ErrorObj _ message => message
                           | ThrownValue _ => String_of_thrown error
                           end))
    end in
  set_timers (fun l => (l ++ [finalValidationMessage])%list) (set_isValid valid page).

(** [validateConfiguration] up to its [await]. *)
Definition validateConfiguration (page : Page) : Page :=
  match pageMetadata with
  | Abrupt _ => page
  | Normal localized =>
      let page1 := set_validationMessage "" (set_isValidating (fun n => n + 1) page) in
      let config : Completion Config :=
        apiKey <- trim_value (field "apiKey" page1) ;;;
        baseUrl <- trim_value (field "baseUrl" page1) ;;;
        Normal ({[ "apiKey" := VStr apiKey; "baseUrl" := VStr baseUrl ]} : Config) in
      match config with
      | Abrupt error => settled (Abrupt error) page1
      | Normal config =>
          set_awaited
            (fun l => (l ++ [ProviderMetadata.validateProviderConfig (metadata localized) config])%list)
            page1
      end
  end.

(** The callback registered with [setTimeout]. *)
Definition completionHandler (finalValidationMessage : string) (page : Page) : Page :=
  set_validationMessage finalValidationMessage (set_isValidating (fun n => n - 1) page).

(** The three writes shared by the debounced function and the reset. *)
Definition clearValidation (page : Page) : Page :=
  set_isValidating (fun _ => 0) (set_validationMessage "" (set_isValid false page)).

(** The function wrapped by [useDebounceFn]. *)
Definition debouncedValidateConfiguration (page : Page) : Page :=
  match trim_value (field "apiKey" page) with
  | Abrupt _ => page
  | Normal apiKey =>
      if String.eqb apiKey "" then clearValidation page else validateConfiguration page
  end.

(** The callback of [watch([apiKey, baseUrl], ..)], without the debounced
    call it schedules. *)
Definition watchSettings (page : Page) : Page :=
  let apiKey := field "apiKey" page in
  let baseUrl := field "baseUrl" page in
  set_store (set_providerCredentials (fun providers =>
    <[providerId := <["baseUrl" := js_or baseUrl (VStr "")]>
                      (<["apiKey" := apiKey]> (default ∅ (providers !! providerId)))]>
      providers))
    page.

(** [onMounted]. *)
Definition onMounted (page : Page) : Page :=
  match initializeProvider providerMetadata providerId (store page) with
  | Abrupt _ => page
  | Normal st =>
      let page1 := set_store (fun _ => st) page in
      let page2 := setField "apiKey" (field "apiKey" page1) page1 in
      let page3 := setField "baseUrl" (field "baseUrl" page2) page2 in
      match trim_value (field "apiKey" page3) with
      | Abrupt _ => page3
      | Normal apiKey =>
          if String.eqb apiKey "" then page3 else validateConfiguration page3
      end
  end.

(** [handleResetSettings] (the same function in both pages). *)
Definition handleResetSettings (page : Page) : Page :=
  match pageMetadata with
  | Abrupt _ => page
  | Normal localized =>
      let defaultOptions :=
        match ProviderMetadata.defaultOptions (metadata localized) with
        | Some f => SpreadFunction f
        | None => SpreadUndefined
        end in
      clearValidation
        (set_store (set_providerCredentials <[providerId := spread defaultOptions]>) page)
  end.

Definition step (ev : Event) (page : Page) : Page :=
  match ev with
  | Mounted => onMounted page
  | SetApiKey value => setField "apiKey" value page
  | SetBaseUrl value => setField "baseUrl" value page
  | WatchFired => watchSettings page
  | DebounceFired => debouncedValidateConfiguration page
  | HookSettled i =>
      match awaited page !! i with
      | Some outcome => settled outcome (set_awaited (delete i) page)
      | None => page
      end
  | TimerFired i =>
      match timers page !! i with
      | Some finalValidationMessage =>
          completionHandler finalValidationMessage (set_timers (delete i) page)
      | None => page
      end
  | ResetClicked => handleResetSettings page
  end.

Definition run (events : list Event) (page : Page) : Page :=
  fold_left (fun p ev => step ev p) events page.

(** The steps that write [isValidating.value = 0]: the reset, and the
    debounced function when the trimmed key is empty. *)
Definition clears (ev : Event) (page : Page) : bool :=
  match ev with
  | ResetClicked => true
  | DebounceFired =>
      match trim_value (field "apiKey" page) with
      | Normal apiKey => String.eqb apiKey ""
      | Abrupt _ => false
      end
  | _ => false
  end.

(** No step of the run is one of those. *)
Fixpoint neverCleared (events : list Event) (page : Page) : bool :=
  match events with
  | [] => true
  | ev :: rest => negb (clears ev page) && neverCleared rest (step ev page)
  end.

End SettingsPage.

(** The page as created: nothing validated, nothing in flight. *)
Definition newPage (st : Store) : Page := mkPage st 0 false "" [] [].

(** ** Concrete environments used in the examples *)

(** No network: every request fails the way [fetch] fails when the host
    cannot be reached. *)
Definition offlineFetch : string -> JsValue -> Completion Response :=
  fun _ _ => Abrupt (ErrorObj "TypeError" "Failed to fetch").

Definition offlineListModels : string -> Config -> Completion (list ModelInfo.t) :=
  fun _ _ => Abrupt (ErrorObj "TypeError" "Failed to fetch").

(** A vendor that lists one model. *)
Definition oneModel : ModelInfo.t :=
  ModelInfo.mk "llama3" "llama3" "ollama" (Some "") None (Some 0) (Some false).

Definition onlineListModels : string -> Config -> Completion (list ModelInfo.t) :=
  fun _ _ => Normal [oneModel].

Definition offlineTable : list (string * ProviderMetadata.t) :=
  tableExcerpt isAbsoluteUrl_spec offlineListModels offlineFetch.

Definition onlineTable : list (string * ProviderMetadata.t) :=
  tableExcerpt isAbsoluteUrl_spec onlineListModels offlineFetch.

(** The store right after creation with nothing persisted: every entry of
    the table seeded with its default base URL. *)
Definition seededCredentials : gmap string Config :=
  {[ "openrouter-ai" := {[ "baseUrl" := VStr "https://openrouter.ai/api/v1/" ]};
     "ollama" := {[ "baseUrl" := VStr "http://localhost:11434/v1/" ]};
     "xai" := {[ "baseUrl" := VStr "" ]} ]}.

Definition seededStore : Store :=
  mkStore seededCredentials
          {[ "openrouter-ai" := false; "ollama" := false; "xai" := false ]}
          ∅ ∅ ∅.

(** The entry ['browser-local-audio-speech'].  Its predicate awaits
    [isWebGPUSupported()] and then reads [navigator.deviceMemory]
    ([deviceMemory]: its value when it is a number, in whole gigabytes;
    the fractional values a browser reports are all below 8). *)
Definition browser_local_audio_speech
    (vendorListModels : string -> Config -> Completion (list ModelInfo.t))
    (isWebGPUSupported : Completion bool) (deviceMemory : option Z)
    : ProviderMetadata.t :=
  ProviderMetadata.mk "browser-local-audio-speech" speech
    "settings.pages.providers.provider.browser-local-audio-speech.title" "Browser (Local)"
    "settings.pages.providers.provider.browser-local-audio-speech.description"
    "https://github.com/moeru-ai/xsai-transformers"
    (Some (webGPUAvailable <- isWebGPUSupported ;;;
           if webGPUAvailable then Normal true
           else match deviceMemory with
                | Some memory => if 8 <=? memory then Normal true else Normal false
                | None => Normal false
                end))
    (Some (fun _ => ∅))
    (Some (vendorListModels "browser-local-audio-speech"))
    (fun config =>
       if negb (truthy (prop config "baseUrl")) then
         Normal (ValidationResult.mk [new_Error "Base URL is required."]
                   "Base URL is required. This is likely a bug, report to developers on https://github.com/moeru-ai/airi/issues."
                   false)
       else Normal (ValidationResult.mk [] "" true)).





(** A localization lookup with no translations: the fallback. *)
Definition untranslated : string -> string -> string := fun _ fallback => fallback.

(** The xAI page over a store that has a key for xAI. *)
Definition xaiStore : Store :=
  set_providerCredentials
    <["xai" := {[ "apiKey" := VStr "xai-123"; "baseUrl" := VStr "https://api.x.ai/v1/" ]}]>
    seededStore.

Definition xaiStep : Event -> Page -> Page :=
  step offlineTable untranslated (fun error => "Validation error: " ++ error) "xai".

Definition xaiRun : list Event -> Page -> Page :=
  run offlineTable untranslated (fun error => "Validation error: " ++ error) "xai".

(** The Ollama page over a store in which the user has pointed Ollama at
    another host. *)
Definition ollamaStore : Store :=
  set_providerCredentials
    <["ollama" := {[ "baseUrl" := VStr "http://10.0.0.2:11434/v1/";
                     "headers" := VObj [] ]}]>
    seededStore.

(** ** Predicates used in the statements *)

(** The three per-provider entries of the model catalog agree in two
    stores. *)
Definition sameCatalogEntry (providerId : string) (st st' : Store) : Prop :=
  isLoadingModels st' !! providerId = isLoadingModels st !! providerId
  /\ modelLoadError st' !! providerId = modelLoadError st !! providerId
  /\ availableModels st' !! providerId = availableModels st !! providerId.


(** The counter is the number of calls in flight. *)
Definition counted (page : Page) : Prop :=
  isValidating page = Z.of_nat (inFlight page).

(** ** More of the store: derived lists, model loading, instances *)

(** [metadata.category === c]. *)
Definition sameCategory (a b : Category) : bool :=
  match a, b with
  | chat, chat | embed, embed | speech, speech | transcription, transcription => true
  | _, _ => false
  end.

(** The error the runtime raises for [providerMetadata[providerId].capabilities]
    when the lookup is [undefined]. *)
Definition TypeError_capabilities : Thrown :=
  ErrorObj "TypeError" "Cannot read properties of undefined (reading 'capabilities')".

Definition credentialsNotFound (providerId : string) : Thrown :=
  new_Error ("Provider credentials for " ++ providerId ++ " not found").

Section StoreViews.

Variable providerMetadata : list (string * ProviderMetadata.t).
Variable t : string -> string -> string.

(** The computed [availableProviders]: the keys of the table whose entry of
    [configuredProviders] is truthy. *)
Definition availableProviders (st : Store) : list string :=
  List.filter (fun providerId => default false (configuredProviders st !! providerId))
              (map fst providerMetadata).

(** The computed [allAvailableModels]. *)
Definition allAvailableModels (st : Store) : list ModelInfo.t :=
  flat_map (fun providerId => default [] (availableModels st !! providerId))
           (availableProviders st).

(** The loop of [loadModelsForConfiguredProviders], each awaited fetch run
    to completion before the next one starts. *)
Fixpoint loadModelsLoop (providerIds : list string) (st : Store) : Completion Store :=
  match providerIds with
  | [] => Normal st
  | providerId :: rest =>
      match metadataOf providerMetadata providerId with
      | None => Abrupt TypeError_capabilities
      | Some metadata =>
          match ProviderMetadata.listModels metadata with
          | Some _ =>
              loadModelsLoop rest (snd (fetchModelsForProvider providerMetadata providerId st))
          | None => loadModelsLoop rest st
          end
      end
  end.

Definition loadModelsForConfiguredProviders (st : Store) : Completion Store :=
  loadModelsLoop (availableProviders st) st.

(** [getProviderConfig]. *)
Definition getProviderConfig (providerId : string) (st : Store) : option Config :=
  providerCredentials st !! providerId.

(** [getProviderInstance], over the descriptor's [createProvider] factory
    (given by the completion of the call); the [catch] logs and rethrows.
    For an [inheritedName] the lookups behave as in [validateProvider]:
    an inherited descriptor has no [createProvider], and calling it
    throws. *)
Definition getProviderInstance {Instance : Type}
    (createProvider : ProviderMetadata.t -> Config -> Completion Instance)
    (providerId : string) (st : Store) : Completion Instance :=
  let create (metadata : ProviderMetadata.t) (config : Config) : Completion Instance :=
    match createProvider metadata config with
    | Normal instance => Normal instance
    | Abrupt error => Abrupt error
    end in
  match providerCredentials st !! providerId with
  | None =>
      if inheritedName providerId then
        match metadataOf providerMetadata providerId with
        | Some metadata => create metadata ∅
        | None => Abrupt TypeError_createProvider
        end
      else Abrupt (credentialsNotFound providerId)
  | Some config =>
      match metadataOf providerMetadata providerId with
      | Some metadata => create metadata config
      | None =>
          if inheritedName providerId then Abrupt TypeError_createProvider
          else Abrupt (notFound providerId)
      end
  end.

(** The category views over [availableProvidersMetadata]. *)
Definition ofCategory (c : Category) (l : list LocalizedMetadata) : list LocalizedMetadata :=
  List.filter (fun item => sameCategory (ProviderMetadata.category (metadata item)) c) l.

Definition allChatProvidersMetadata (st : Store) : list LocalizedMetadata :=
  ofCategory chat (availableProvidersMetadata providerMetadata t st).

Definition allAudioSpeechProvidersMetadata (st : Store) : list LocalizedMetadata :=
  ofCategory speech (availableProvidersMetadata providerMetadata t st).

Definition allAudioTranscriptionProvidersMetadata (st : Store) : list LocalizedMetadata :=
  ofCategory transcription (availableProvidersMetadata providerMetadata t st).

(** [.filter(metadata => configuredProviders.value[metadata.id])]. *)
Definition configuredOnly (st : Store) (l : list LocalizedMetadata) : list LocalizedMetadata :=
  List.filter (fun item =>
                 default false (configuredProviders st !! ProviderMetadata.id (metadata item)))
              l.

Definition configuredChatProvidersMetadata (st : Store) : list LocalizedMetadata :=
  configuredOnly st (allChatProvidersMetadata st).

Definition configuredSpeechProvidersMetadata (st : Store) : list LocalizedMetadata :=
  configuredOnly st (allAudioSpeechProvidersMetadata st).

Definition configuredTranscriptionProvidersMetadata (st : Store) : list LocalizedMetadata :=
  configuredOnly st (allAudioTranscriptionProvidersMetadata st).

End StoreViews.

(** Whether [validateProvider] resolves to [true]: what the [try]/[catch]
    of [updateConfigurationStatus] records. *)
Definition validates (providerMetadata : list (string * ProviderMetadata.t))
    (providerId : string) (st : Store) : bool :=
  match validateProvider providerMetadata providerId st with
  | Normal b => b
  | Abrupt _ => false
  end.

(** Every cached model is filed under the provider it is tagged with. *)
Definition catalogTagged (st : Store) : Prop :=
  forall providerId models,
    availableModels st !! providerId = Some models ->
    Forall (fun model => ModelInfo.provider model = providerId) models.

(** A store with a model cached for Ollama and Ollama configured. *)
Definition cachedStore : Store :=
  set_configuredProviders <["ollama" := true]>
    (set_availableModels <["ollama" := [oneModel]]> seededStore).

(** The entry ['player2-speech']: voices only, no [listModels]. *)
Definition player2_speech (isAbsoluteUrl : JsValue -> bool) : ProviderMetadata.t :=
  ProviderMetadata.mk "player2-speech" speech
    "settings.pages.providers.provider.player2.title" "Player2 Speech"
    "settings.pages.providers.provider.player2.description" "player2.game"
    None
    (Some (fun _ => {[ "baseUrl" := VStr "http://localhost:4315/v1/" ]}))
    None
    (fun config =>
       if negb (truthy (prop config "baseUrl")) then
         Normal (ValidationResult.mk [new_Error "Base URL is required."]
                   "Base URL is required. Default to http://localhost:4315/v1/"
                   false)
       else if negb (isAbsoluteUrl (prop config "baseUrl")) then Normal notBaseUrlError
       else Normal (ValidationResult.mk [] "" true)).

(** The excerpt of the table with that entry, which is the last one. *)
Definition speechTable : list (string * ProviderMetadata.t) :=
  (onlineTable ++ [("player2-speech", player2_speech isAbsoluteUrl_spec)])%list.

(** The store created over it when nothing was persisted, with a list of
    models left in the cache of the speech provider. *)
Definition speechStore : Store :=
  set_availableModels <["player2-speech" := [oneModel]]>
    (set_providerCredentials
       <["player2-speech" := {[ "baseUrl" := VStr "http://localhost:4315/v1/" ]}]>
       (set_configuredProviders <["player2-speech" := true]> seededStore)).

(** A validation result is coherent when it is valid exactly if it lists
    no error, and exactly if its reason is empty. *)
Definition coherentResult (r : ValidationResult.t) : Prop :=
  (ValidationResult.valid r = true <-> ValidationResult.errors r = [])
  /\ (ValidationResult.valid r = true <-> ValidationResult.reason r = "").

(** The second half of the reason Ollama's validator gives when the
    server cannot be reached. *)
Definition ollamaCorsHint : string :=
  " occurred.

If you are using Ollama locally, this is likely the CORS (Cross-Origin Resource Sharing) security issue, where you will need to set OLLAMA_ORIGINS=* or OLLAMA_ORIGINS=https://airi.moeru.ai,http://localhost environment variable before launching Ollama server to make this work.".

(** A server that answers every request with status 500. *)
Definition fetch500 : string -> JsValue -> Completion Response :=
  fun _ _ => Normal (mkResponse false "Internal Server Error").

Definition failingTable : list (string * ProviderMetadata.t) :=
  tableExcerpt isAbsoluteUrl_spec offlineListModels fetch500.

(** ** The Ollama settings page *)

(** A row of the header editor. *)
Module HeaderRow.
Record t : Type := mk {
  key : string;
  value : JsValue
}.
End HeaderRow.

Definition emptyRow : HeaderRow.t := HeaderRow.mk "" (VStr "").

(** The UTF-16 code units of a string, each as a string of its own: a
    character of one, two or three bytes is one unit; a character of four
    bytes (beyond U+FFFF) is two units, its surrogates, each written in
    the three-byte form. *)
Definition surrogate (u : N) : string :=
  String (Ascii.ascii_of_N 237)
    (String (Ascii.ascii_of_N (128 + (u / 64) mod 64))
       (String (Ascii.ascii_of_N (128 + u mod 64)) EmptyString)).

Fixpoint codeUnits (s : string) : list string :=
  match s with
  | EmptyString => []
  | String c1 rest1 =>
      let n1 := Ascii.N_of_ascii c1 in
      if (n1 <? 192)%N then String c1 EmptyString :: codeUnits rest1
      else
        match rest1 with
        | EmptyString => [s]
        | String c2 rest2 =>
            if (n1 <? 224)%N then String c1 (String c2 EmptyString) :: codeUnits rest2
            else
              match rest2 with
              | EmptyString => [s]
              | String c3 rest3 =>
                  if (n1 <? 240)%N
                  then String c1 (String c2 (String c3 EmptyString)) :: codeUnits rest3
                  else
                    match rest3 with
                    | EmptyString => [s]
                    | String c4 rest4 =>
                        let point :=
                          ((n1 mod 8) * 262144 + (Ascii.N_of_ascii c2 mod 64) * 4096
                           + (Ascii.N_of_ascii c3 mod 64) * 64
                           + Ascii.N_of_ascii c4 mod 64)%N in
                        let offset := (point - 65536)%N in
                        surrogate (55296 + offset / 1024)
                        :: surrogate (56320 + offset mod 1024)
                        :: codeUnits rest4
                    end
              end
        end
  end.

(** [Object.entries(v)]: the properties of an object in their order, the
    indexed code units of a string, nothing for the other primitives. *)
Fixpoint indexedChars (i : nat) (units : list string) : list (string * JsValue) :=
  match units with
  | [] => []
  | unit :: rest => (pretty i, VStr unit) :: indexedChars (S i) rest
  end.

Definition Object_entries (v : JsValue) : list (string * JsValue) :=
  match v with
  | VObj props => props
  | VStr s => indexedChars 0 (codeUnits s)
  | _ => []
  end.

(** [obj[k]] on the property list of an object. *)
Fixpoint lookupProp (props : list (string * JsValue)) (k : string) : option JsValue :=
  match props with
  | [] => None
  | (k', v) :: rest => if String.eqb k' k then Some v else lookupProp rest k
  end.

(** The array indices among the property keys: the canonical decimal
    numerals of the integers from 0 to 2^32 - 2. *)
Definition digitValue (c : Ascii.ascii) : option N :=
  let n := Ascii.N_of_ascii c in
  if ((48 <=? n) && (n <=? 57))%N then Some (n - 48)%N else None.

Fixpoint parseDigits (s : string) (acc : N) : option N :=
  match s with
  | EmptyString => Some acc
  | String c rest =>
      match digitValue c with
      | Some d => parseDigits rest (acc * 10 + d)%N
      | None => None
      end
  end.

Definition arrayIndex (key : string) : option N :=
  match key with
  | EmptyString => None
  | String c rest =>
      if (Ascii.N_of_ascii c =? 48)%N && negb (String.eqb rest "") then None
      else
        match parseDigits key 0%N with
        | Some n => if (n <? 4294967295)%N then Some n else None
        | None => None
        end
  end.

Definition hasProp (props : list (string * JsValue)) (k : string) : bool :=
  existsb (fun entry => String.eqb (fst entry) k) props.

(** The value of an existing property is replaced where the property is. *)
Fixpoint replaceProp (props : list (string * JsValue)) (k : string) (v : JsValue)
    : list (string * JsValue) :=
  match props with
  | [] => []
  | (k', v') :: rest =>
      if String.eqb k' k then (k', v) :: rest else (k', v') :: replaceProp rest k v
  end.

(** A new property whose key is the array index [n] goes before the first
    property that is not an array index or has a larger one: the array
    indices are enumerated first, in ascending order. *)
Fixpoint insertIndexed (props : list (string * JsValue)) (n : N) (k : string) (v : JsValue)
    : list (string * JsValue) :=
  match props with
  | [] => [(k, v)]
  | (k', v') :: rest =>
      match arrayIndex k' with
      | Some n' =>
          if (n <? n')%N then (k, v) :: props else (k', v') :: insertIndexed rest n k v
      | None => (k, v) :: props
      end
  end.

(** Defining or updating the own property [k]. *)
Definition defineProp (props : list (string * JsValue)) (k : string) (v : JsValue)
    : list (string * JsValue) :=
  if hasProp props k then replaceProp props k v
  else
    match arrayIndex k with
    | Some n => insertIndexed props n k v
    | None => (props ++ [(k, v)])%list
    end.

(** [acc[k] = v] on an object created by [{}], given by its own
    properties in their enumeration order.  For the key ["__proto__"] the
    assignment goes to the accessor inherited from [Object.prototype]: it
    creates no own property (an object value becomes the prototype, any
    other value is ignored). *)
Definition assignProp (props : list (string * JsValue)) (k : string) (v : JsValue)
    : list (string * JsValue) :=
  if String.eqb k "__proto__" then props else defineProp props k v.

(** [rows.filter(header => header.key !== '').reduce((acc, header) =>
    { acc[header.key] = header.value; return acc }, {})]. *)
Definition headersObject (rows : list HeaderRow.t) : JsValue :=
  VObj (fold_left (fun acc row => assignProp acc (HeaderRow.key row) (HeaderRow.value row))
                  (List.filter (fun row => negb (String.eqb (HeaderRow.key row) "")) rows)
                  []).

(** [v !== '']. *)
Definition notEmptyString (v : JsValue) : bool :=
  match v with
  | VStr s => negb (String.eqb s "")
  | _ => true
  end.

(** [addKeyValue]. *)
Definition addKeyValue (rows : list HeaderRow.t) (key : string) (value : JsValue)
    : list HeaderRow.t :=
  (rows ++ [HeaderRow.mk key value])%list.

(** [headers.splice(index, 1)] for an integer [index]: a negative index
    counts from the end, an index past the end removes nothing. *)
Definition splice1 {A} (index : Z) (l : list A) : list A :=
  let len := Z.of_nat (length l) in
  let start := if index <? 0 then Z.max (len + index) 0 else Z.min index len in
  delete (Z.to_nat start) l.

(** [removeKeyValue]: the only row is blanked, not removed. *)
Definition removeKeyValue (index : Z) (rows : list HeaderRow.t) : list HeaderRow.t :=
  match rows with
  | [_] => [emptyRow]
  | _ => splice1 index rows
  end.

(** The refs of the Ollama page: those every page has, and the rows of
    the header editor. *)
Record OllamaPage : Type := mkOllamaPage {
  page : Page;
  headers : list HeaderRow.t
}.

Inductive OllamaEvent : Type :=
| OMounted
| OSetBaseUrl (value : JsValue)
| OSetHeaders (rows : list HeaderRow.t)
| OAddKeyValue (key : string) (value : JsValue)
| ORemoveKeyValue (index : Z)
| OHeadersWatchFired
| ODebounceFired
| OHookSettled (i : nat)
| OTimerFired (i : nat)
| OResetClicked.

Section OllamaSettingsPage.

Variable providerMetadata : list (string * ProviderMetadata.t).
Variable t : string -> string -> string.
Variable tValidationError : string -> string.

(** The page's [providerId] constant. *)
Variable providerId : string.

(** The initial value of the [headers] ref. *)
Definition initialHeaders (st : Store) : list HeaderRow.t :=
  map (fun entry : string * JsValue => HeaderRow.mk (fst entry) (snd entry))
      (Object_entries
         (js_or (match providerCredentials st !! providerId with
                 | Some config => prop config "headers"
                 | None => VUndefined
                 end)
                (VObj []))).

(** The getter of the computed [baseUrl]:
    [providers.value[providerId]?.baseUrl
     || providerMetadata.value?.defaultOptions?.().baseUrl || ''].
    The descriptor is read only when the stored value is falsy. *)
Definition ollamaBaseUrl (p : Page) : Completion JsValue :=
  let stored := match providerCredentials (store p) !! providerId with
                | Some config => prop config "baseUrl"
                | None => VUndefined
                end in
  if truthy stored then Normal stored
  else
    localized <- pageMetadata providerMetadata t providerId ;;;
    Normal (js_or (match ProviderMetadata.defaultOptions (metadata localized) with
                   | Some f => prop (f tt) "baseUrl"
                   | None => VUndefined
                   end)
                  (VStr "")).

(** [validateConfiguration] of the Ollama page up to its [await]. *)
Definition ollamaValidateConfiguration (o : OllamaPage) : OllamaPage :=
  match pageMetadata providerMetadata t providerId with
  | Abrupt _ => o
  | Normal localized =>
      let page1 := set_validationMessage "" (set_isValidating (fun n => n + 1) (page o)) in
      let config : Completion Config :=
        baseUrl <- (value <- ollamaBaseUrl page1 ;;; trim_value value) ;;;
        Normal ({[ "baseUrl" := VStr baseUrl;
                   "headers" := headersObject (headers o) ]} : Config) in
      mkOllamaPage
        match config with
        | Abrupt error => settled tValidationError (Abrupt error) page1
        | Normal config =>
            set_awaited
              (fun l => (l ++ [ProviderMetadata.validateProviderConfig (metadata localized) config])%list)
              page1
        end
        (headers o)
  end.

(** The function wrapped by [useDebounceFn] in the Ollama page. *)
Definition ollamaDebouncedValidateConfiguration (o : OllamaPage) : OllamaPage :=
  match value <- ollamaBaseUrl (page o) ;;; trim_value value with
  | Abrupt _ => o
  | Normal baseUrl =>
      if String.eqb baseUrl ""
      then mkOllamaPage (clearValidation (page o)) (headers o)
      else ollamaValidateConfiguration o
  end.

(** The rows after the first statement of the [watch(headers, ..)]
    callback: an empty row is pushed when the last row is not empty. *)
Definition withTrailingRow (rows : list HeaderRow.t) : list HeaderRow.t :=
  match last rows with
  | Some row =>
      if negb (String.eqb (HeaderRow.key row) "") || notEmptyString (HeaderRow.value row)
      then (rows ++ [emptyRow])%list
      else rows
  | None => rows
  end.

(** The callback of [watch(headers, ..)], without the debounced call it
    schedules.  The assignment to [providers.value[providerId].headers]
    throws when the provider has no stored config; the pushed row stays. *)
Definition watchHeaders (o : OllamaPage) : OllamaPage :=
  let rows := withTrailingRow (headers o) in
  match providerCredentials (store (page o)) !! providerId with
  | None => mkOllamaPage (page o) rows
  | Some config =>
      mkOllamaPage
        (set_store (set_providerCredentials
                      <[providerId := <["headers" := headersObject rows]> config]>)
                   (page o))
        rows
  end.

(** [onMounted] of the Ollama page. *)
Definition ollamaOnMounted (o : OllamaPage) : OllamaPage :=
  match initializeProvider providerMetadata providerId (store (page o)) with
  | Abrupt _ => o
  | Normal st =>
      let page1 := set_store (fun _ => st) (page o) in
      match ollamaBaseUrl page1 with
      | Abrupt _ => mkOllamaPage page1 (headers o)
      | Normal baseUrl =>
          let page2 := setField providerId "baseUrl" baseUrl page1 in
          let page3 :=
            if truthy (match providerCredentials (store page2) !! providerId with
                       | Some config => prop config "headers"
                       | None => VUndefined
                       end)
            then page2
            else setField providerId "headers" (VObj []) page2 in
          let rows := match headers o with
                      | [] => [emptyRow]
                      | rows => rows
                      end in
          match value <- ollamaBaseUrl page3 ;;; trim_value value with
          | Abrupt _ => mkOllamaPage page3 rows
          | Normal trimmed =>
              if String.eqb trimmed "" then mkOllamaPage page3 rows
              else ollamaValidateConfiguration (mkOllamaPage page3 rows)
          end
      end
  end.

Definition ollamaStep (ev : OllamaEvent) (o : OllamaPage) : OllamaPage :=
  match ev with
  | OMounted => ollamaOnMounted o
  | OSetBaseUrl value => mkOllamaPage (setField providerId "baseUrl" value (page o)) (headers o)
  | OSetHeaders rows => mkOllamaPage (page o) rows
  | OAddKeyValue key value => mkOllamaPage (page o) (addKeyValue (headers o) key value)
  | ORemoveKeyValue index => mkOllamaPage (page o) (removeKeyValue index (headers o))
  | OHeadersWatchFired => watchHeaders o
  | ODebounceFired => ollamaDebouncedValidateConfiguration o
  | OHookSettled i =>
      match awaited (page o) !! i with
      | Some outcome =>
          mkOllamaPage (settled tValidationError outcome (set_awaited (delete i) (page o)))
                       (headers o)
      | None => o
      end
  | OTimerFired i =>
      match timers (page o) !! i with
      | Some finalValidationMessage =>
          mkOllamaPage (completionHandler finalValidationMessage
                          (set_timers (delete i) (page o)))
                       (headers o)
      | None => o
      end
  | OResetClicked =>
      mkOllamaPage (handleResetSettings providerMetadata t providerId (page o)) (headers o)
  end.

Definition ollamaRun (events : list OllamaEvent) (o : OllamaPage) : OllamaPage :=
  fold_left (fun p ev => ollamaStep ev p) events o.

(** The steps of the Ollama page that write [isValidating.value = 0]. *)
Definition ollamaClears (ev : OllamaEvent) (o : OllamaPage) : bool :=
  match ev with
  | OResetClicked => true
  | ODebounceFired =>
      match value <- ollamaBaseUrl (page o) ;;; trim_value value with
      | Normal baseUrl => String.eqb baseUrl ""
      | Abrupt _ => false
      end
  | _ => false
  end.

Fixpoint ollamaNeverCleared (events : list OllamaEvent) (o : OllamaPage) : bool :=
  match events with
  | [] => true
  | ev :: rest => negb (ollamaClears ev o) && ollamaNeverCleared rest (ollamaStep ev o)
  end.

End OllamaSettingsPage.

(** The Ollama page as created over a store. *)
Definition newOllamaPage (st : Store) : OllamaPage :=
  mkOllamaPage (newPage st) (initialHeaders "ollama" st).

(** The xAI page over a store in which the base URL is two spaces. *)
Definition blankUrlStore : Store :=
  set_providerCredentials
    <["xai" := {[ "apiKey" := VStr "xai-123"; "baseUrl" := VStr "  " ]}]>
    seededStore.

(** Two header rows and the empty row the editor keeps at the end. *)
Definition sampleRows : list HeaderRow.t :=
  [HeaderRow.mk "Authorization" (VStr "Bearer a");
   HeaderRow.mk "X-Trace" (VStr "1");
   emptyRow].

(** The Ollama page as [seededStore] gives it, and what happens to it in
    the example run: the immediate headers watcher, the mount, a header
    typed in, a second validation while the first is pending. *)
Definition ollamaEvents : list OllamaEvent :=
  [OHeadersWatchFired; OMounted;
   OSetHeaders [HeaderRow.mk "Authorization" (VStr "Bearer a")];
   OHeadersWatchFired; ODebounceFired;
   OHookSettled 0; OTimerFired 0; OHookSettled 0; OTimerFired 0].

Definition ollamaRunExample : list OllamaEvent -> OllamaPage :=
  fun events =>
    ollamaRun failingTable untranslated (fun error => "Validation error: " ++ error)
              "ollama" events (newOllamaPage seededStore).

(** The string with the given bytes, and three of the white space
    characters [trim] strips that are not ASCII. *)
Definition utf8 (bytes : list nat) : string :=
  fold_right (fun b s => String (Ascii.ascii_of_nat b) s) EmptyString bytes.

Definition noBreakSpace : string := utf8 [194; 160]%nat.
Definition ideographicSpace : string := utf8 [227; 128; 128]%nat.
Definition byteOrderMark : string := utf8 [239; 187; 191]%nat.

(** The xAI page over a store in which the key is a no-break space, and
    the Ollama page over one in which the base URL is an ideographic
    space. *)
Definition blankKeyStore : Store :=
  set_providerCredentials
    <["xai" := {[ "apiKey" := VStr noBreakSpace; "baseUrl" := VStr "https://api.x.ai/v1/" ]}]>
    seededStore.

Definition blankOllamaUrlStore : Store :=
  set_providerCredentials
    <["ollama" := {[ "baseUrl" := VStr ideographicSpace ]}]>
    seededStore.

(** A vendor whose listing throws a string. *)
Definition throwingListModels : string -> Config -> Completion (list ModelInfo.t) :=
  fun _ _ => Abrupt (ThrownValue (VStr "boom")).

(** ** Properties of the store *)

Lemma createStore_seeded : createStore offlineTable ∅ = Normal seededStore.
Proof. vm_compute. reflexivity. Qed.

Section StoreProperties.

Variable providerMetadata : list (string * ProviderMetadata.t).

Lemma validateProvider_present providerId st config metadata :
  providerCredentials st !! providerId = Some config ->
  metadataOf providerMetadata providerId = Some metadata ->
  validateProvider providerMetadata providerId st =
    (validationResult <- ProviderMetadata.validateProviderConfig metadata config ;;;
     if negb (ValidationResult.valid validationResult)
     then Abrupt (new_Error (ValidationResult.reason validationResult))
     else Normal (ValidationResult.valid validationResult)).
Proof.
  intros Hconfig Hmeta. unfold validateProvider. now rewrite Hconfig, Hmeta.
Qed.

Lemma updateStatusOf_configured providerId st :
  configuredProviders (updateStatusOf providerMetadata providerId st) !! providerId =
    Some (match validateProvider providerMetadata providerId st with
          | Normal b => b
          | Abrupt _ => false
          end).
Proof.
  unfold updateStatusOf.
  destruct (validateProvider providerMetadata providerId st); simpl;
    apply lookup_insert_eq.
Qed.

End StoreProperties.

(** C1, as the code has it.  For a provider with a stored config and a
    descriptor, [validateProvider] resolves only when the hook reports a
    valid config, and then to [true]; an invalid result of the hook is
    thrown as [new Error(reason)], and an exception of the hook is passed
    on.  The conversion into a value happens in the caller,
    [updateConfigurationStatus], which records the provider as not
    configured in both cases. *)
Theorem validateProvider_outcomes
    (providerMetadata : list (string * ProviderMetadata.t))
    (providerId : string) (st : Store) (config : Config) (metadata : ProviderMetadata.t)
    (Hconfig : providerCredentials st !! providerId = Some config)
    (Hmeta : metadataOf providerMetadata providerId = Some metadata) :
  match ProviderMetadata.validateProviderConfig metadata config with
  | Normal validationResult =>
      if ValidationResult.valid validationResult
      then validateProvider providerMetadata providerId st = Normal true
           /\ configuredProviders (updateStatusOf providerMetadata providerId st) !! providerId
              = Some true
      else validateProvider providerMetadata providerId st
             = Abrupt (new_Error (ValidationResult.reason validationResult))
           /\ configuredProviders (updateStatusOf providerMetadata providerId st) !! providerId
              = Some false
  | Abrupt error =>
      validateProvider providerMetadata providerId st = Abrupt error
      /\ configuredProviders (updateStatusOf providerMetadata providerId st) !! providerId
         = Some false
  end.
Proof.
  rewrite updateStatusOf_configured.
  rewrite (validateProvider_present _ _ _ _ _ Hconfig Hmeta).
  destruct (ProviderMetadata.validateProviderConfig metadata config) as [r|e]; simpl.
  - destruct (ValidationResult.valid r) eqn:Hvalid; simpl; rewrite ?Hvalid; auto.
  - auto.
Qed.

(** OpenRouter right after store creation (base URL seeded, no API key):
    the invalid result is thrown, and the tracker records [false]. *)
Lemma validateProvider_outcomes_witness :
  validateProvider offlineTable "openrouter-ai" seededStore
    = Abrupt (new_Error "Error: API key is required")
  /\ configuredProviders (updateStatusOf offlineTable "openrouter-ai" seededStore)
       !! "openrouter-ai" = Some false.
Proof.
  exact (validateProvider_outcomes offlineTable "openrouter-ai" seededStore
           {[ "baseUrl" := VStr "https://openrouter.ai/api/v1/" ]}
           (openrouter_ai isAbsoluteUrl_spec offlineListModels)
           eq_refl eq_refl).
Defined.

(** C1 as stated does not hold: on the freshly created store (xAI has an
    empty base URL and no key) [validateProvider('xai')] rejects with the
    reason of the invalid result; it resolves to no value. *)
Lemma validateProvider_rejects :
  validateProvider offlineTable "xai" seededStore
    = Abrupt (new_Error "Error: API key is required., Error: Base URL is required.")
  /\ forall outcome : bool,
       validateProvider offlineTable "xai" seededStore <> Normal outcome.
Proof.
  assert (H : validateProvider offlineTable "xai" seededStore
              = Abrupt (new_Error "Error: API key is required., Error: Base URL is required."))
    by (vm_compute; reflexivity).
  split; [exact H | intros outcome Heq; rewrite H in Heq; discriminate].
Qed.

(** C3, as the code has it.  For a provider id that does not name a
    property inherited from [Object.prototype], [validateProvider]
    resolves to [false] when the stored config or the descriptor is
    missing.  For an id that names one ([constructor], [toString],
    [__proto__], ...) and has no descriptor, the lookups find the truthy
    inherited value and [validateProvider] rejects with a [TypeError]. *)
Theorem validateProvider_missing
    (providerMetadata : list (string * ProviderMetadata.t))
    (providerId : string) (st : Store) :
  (inheritedName providerId = false ->
   providerCredentials st !! providerId = None
   \/ metadataOf providerMetadata providerId = None ->
   validateProvider providerMetadata providerId st = Normal false)
  /\ (inheritedName providerId = true ->
      metadataOf providerMetadata providerId = None ->
      exists message,
        validateProvider providerMetadata providerId st
        = Abrupt (ErrorObj "TypeError" message)).
Proof.
  unfold validateProvider. split.
  - intros Hname Hmissing. rewrite Hname.
    destruct (providerCredentials st !! providerId) as [config|]; [|reflexivity].
    destruct Hmissing as [Hconfig | Hmeta]; [discriminate|].
    now rewrite Hmeta.
  - intros Hname Hmeta. rewrite Hname, Hmeta.
    destruct (providerCredentials st !! providerId); eexists; reflexivity.
Qed.

Lemma validateProvider_missing_witness :
  validateProvider offlineTable "groq" seededStore = Normal false
  /\ exists message,
       validateProvider offlineTable "constructor" seededStore
       = Abrupt (ErrorObj "TypeError" message).
Proof.
  split.
  - apply (validateProvider_missing offlineTable "groq" seededStore).
    + reflexivity.
    + left. vm_compute. reflexivity.
  - apply (validateProvider_missing offlineTable "constructor" seededStore);
      reflexivity.
Defined.

(** C3 as stated does not hold: a config persisted for an id the table
    does not have (descriptor missing), and an id with neither config nor
    descriptor, both make [validateProvider] resolve. *)
Lemma validateProvider_missing_resolves :
  validateProvider offlineTable "legacy"
    (set_providerCredentials <["legacy" := {[ "baseUrl" := VStr "" ]}]> seededStore)
    = Normal false
  /\ validateProvider offlineTable "groq" seededStore = Normal false
  /\ forall error : Thrown,
       validateProvider offlineTable "groq" seededStore <> Abrupt error.
Proof.
  split; [vm_compute; reflexivity|].
  split; [vm_compute; reflexivity|].
  intros error Heq. vm_compute in Heq. discriminate.
Qed.

(** C9.  For a provider id of the table, [initializeProvider] succeeds and
    a second call returns the store of the first unchanged. *)
Theorem initializeProvider_idempotent
    (providerMetadata : list (string * ProviderMetadata.t))
    (providerId : string) (st : Store)
    (Hin : is_Some (metadataOf providerMetadata providerId)) :
  exists st1,
    initializeProvider providerMetadata providerId st = Normal st1
    /\ initializeProvider providerMetadata providerId st1 = Normal st1
    /\ is_Some (providerCredentials st1 !! providerId).
Proof.
  destruct Hin as [metadata Hmeta].
  unfold initializeProvider at 1.
  destruct (providerCredentials st !! providerId) as [config|] eqn:Hconfig.
  - exists st. split; [reflexivity|]. split; [|eauto].
    unfold initializeProvider. now rewrite Hconfig.
  - rewrite Hmeta. eexists. split; [reflexivity|].
    unfold initializeProvider; simpl. rewrite lookup_insert_eq. eauto.
Qed.

Lemma initializeProvider_idempotent_witness :
  exists st1,
    initializeProvider offlineTable "ollama" emptyStore = Normal st1
    /\ initializeProvider offlineTable "ollama" st1 = Normal st1
    /\ is_Some (providerCredentials st1 !! "ollama").
Proof.
  apply (initializeProvider_idempotent offlineTable "ollama" emptyStore).
  vm_compute. eauto.
Defined.




(** ** The OpenRouter validator *)

Lemma and_Error_falsy (config : Config) (key : string) :
  truthy (prop config key) = false ->
  and_Error (negb (truthy (prop config key))) = fun message => Some (new_Error message).
Proof. intros H. unfold and_Error. now rewrite H. Qed.

(** C5.  With [apiKey] and [baseUrl] both empty (or absent) the OpenRouter
    validator reports [valid = false] with both missing-field errors and
    both reasons; with a non-empty [baseUrl] that is not an absolute URL
    it returns the "not absolute" outcome (the error
    ['Base URL is not absolute'], the reason
    ['Base URL is not absolute. Check your input.'], not valid) and no
    missing-field reason, whatever [apiKey] is. *)
Theorem openrouter_validateProviderConfig_cases
    (isAbsoluteUrl : JsValue -> bool)
    (vendorListModels : string -> Config -> Completion (list ModelInfo.t))
    (config : Config) :
  (truthy (prop config "apiKey") = false ->
   truthy (prop config "baseUrl") = false ->
   ProviderMetadata.validateProviderConfig
     (openrouter_ai isAbsoluteUrl vendorListModels) config
   = Normal (ValidationResult.mk
               [ErrorObj "Error" "API key is required";
                ErrorObj "Error" "Base URL is required"]
               "Error: API key is required, Error: Base URL is required"
               false))
  /\ (truthy (prop config "baseUrl") = true ->
      isAbsoluteUrl (prop config "baseUrl") = false ->
      ProviderMetadata.validateProviderConfig
        (openrouter_ai isAbsoluteUrl vendorListModels) config
      = Normal (ValidationResult.mk
                  [ErrorObj "Error" "Base URL is not absolute"]
                  "Base URL is not absolute. Check your input."
                  false)).
Proof.
  split.
  - intros Hkey Hurl. simpl. unfold openrouter_validateProviderConfig.
    rewrite !and_Error_falsy by assumption.
    rewrite Hkey, Hurl. reflexivity.
  - intros Hurl Habs. simpl. unfold openrouter_validateProviderConfig.
    now rewrite Hurl, Habs.
Qed.

(** Both fields empty; and ["api.example.com"] with no API key. *)
Lemma openrouter_validateProviderConfig_cases_witness :
  ProviderMetadata.validateProviderConfig
    (openrouter_ai isAbsoluteUrl_spec offlineListModels)
    {[ "apiKey" := VStr ""; "baseUrl" := VStr "" ]}
  = Normal (ValidationResult.mk
              [ErrorObj "Error" "API key is required";
               ErrorObj "Error" "Base URL is required"]
              "Error: API key is required, Error: Base URL is required"
              false)
  /\ ProviderMetadata.validateProviderConfig
       (openrouter_ai isAbsoluteUrl_spec offlineListModels)
       {[ "baseUrl" := VStr "api.example.com" ]}
     = Normal (ValidationResult.mk
                 [ErrorObj "Error" "Base URL is not absolute"]
                 "Base URL is not absolute. Check your input."
                 false).
Proof.
  split.
  - apply (openrouter_validateProviderConfig_cases isAbsoluteUrl_spec offlineListModels
             {[ "apiKey" := VStr ""; "baseUrl" := VStr "" ]}); reflexivity.
  - apply (openrouter_validateProviderConfig_cases isAbsoluteUrl_spec offlineListModels
             {[ "baseUrl" := VStr "api.example.com" ]}); reflexivity.
Defined.

(** ** Model discovery *)

Section ModelCatalog.

Variable providerMetadata : list (string * ProviderMetadata.t).

Lemma fetchModelsForProvider_unfold providerId st config metadata listModels :
  providerCredentials st !! providerId = Some config ->
  metadataOf providerMetadata providerId = Some metadata ->
  ProviderMetadata.listModels metadata = Some listModels ->
  fetchModelsForProvider providerMetadata providerId st =
    fetchModels_settle providerId (listModels config)
      (set_modelLoadError <[providerId := None]>
         (set_isLoadingModels <[providerId := true]> st)).
Proof.
  intros Hconfig Hmeta Hlist.
  unfold fetchModelsForProvider, fetchModels_begin.
  now rewrite Hconfig, Hmeta, Hlist.
Qed.

(** A failed fetch, from any state. *)
Lemma fetchModelsForProvider_failed providerId st config metadata listModels error :
  providerCredentials st !! providerId = Some config ->
  metadataOf providerMetadata providerId = Some metadata ->
  ProviderMetadata.listModels metadata = Some listModels ->
  listModels config = Abrupt error ->
  let '(result, st') := fetchModelsForProvider providerMetadata providerId st in
  result = []
  /\ modelLoadError st' !! providerId = Some (Some (errorMessage error))
  /\ availableModels st' = availableModels st
  /\ isLoadingModels st' !! providerId = Some false
  /\ providerCredentials st' = providerCredentials st.
Proof.
  intros Hconfig Hmeta Hlist Hthrow.
  rewrite (fetchModelsForProvider_unfold _ _ _ _ _ Hconfig Hmeta Hlist), Hthrow.
  simpl. repeat split; apply lookup_insert_eq.
Qed.

(** A successful fetch, from any state. *)
Lemma fetchModelsForProvider_succeeded providerId st config metadata listModels models :
  providerCredentials st !! providerId = Some config ->
  metadataOf providerMetadata providerId = Some metadata ->
  ProviderMetadata.listModels metadata = Some listModels ->
  listModels config = Normal models ->
  let '(result, st') := fetchModelsForProvider providerMetadata providerId st in
  result = map (transformModel providerId) models
  /\ modelLoadError st' !! providerId = Some None
  /\ availableModels st' !! providerId = Some (map (transformModel providerId) models)
  /\ isLoadingModels st' !! providerId = Some false.
Proof.
  intros Hconfig Hmeta Hlist Hok.
  rewrite (fetchModelsForProvider_unfold _ _ _ _ _ Hconfig Hmeta Hlist), Hok.
  simpl. repeat split; apply lookup_insert_eq.
Qed.

End ModelCatalog.

(** C6.  When [listModels] throws, [fetchModelsForProvider] returns the
    empty list, records the message of the error in [modelLoadError[id]]
    (['Unknown error'] for a thrown value that is not an [Error]), leaves
    the cache of models as it was and ends with [isLoadingModels[id]]
    false.  A later fetch in which [listModels] succeeds (the descriptor
    table standing for the world at that later call) ends with
    [modelLoadError[id]] null and [isLoadingModels[id]] false as well. *)
Theorem fetchModelsForProvider_error_handling
    (providerMetadata providerMetadata' : list (string * ProviderMetadata.t))
    (providerId : string) (st : Store) (config : Config)
    (metadata metadata' : ProviderMetadata.t)
    (listModels listModels' : Config -> Completion (list ModelInfo.t))
    (error : Thrown) (models : list ModelInfo.t)
    (Hconfig : providerCredentials st !! providerId = Some config)
    (Hmeta : metadataOf providerMetadata providerId = Some metadata)
    (Hlist : ProviderMetadata.listModels metadata = Some listModels)
    (Hthrow : listModels config = Abrupt error)
    (Hmeta' : metadataOf providerMetadata' providerId = Some metadata')
    (Hlist' : ProviderMetadata.listModels metadata' = Some listModels')
    (Hok : listModels' config = Normal models) :
  let failed := fetchModelsForProvider providerMetadata providerId st in
  let succeeded := fetchModelsForProvider providerMetadata' providerId (snd failed) in
  fst failed = []
  /\ modelLoadError (snd failed) !! providerId
     = Some (Some match error with
                  | ErrorObj _ message => message
                  | ThrownValue _ => "Unknown error"
                  end)
  /\ availableModels (snd failed) = availableModels st
  /\ isLoadingModels (snd failed) !! providerId = Some false
  /\ modelLoadError (snd succeeded) !! providerId = Some None
  /\ isLoadingModels (snd succeeded) !! providerId = Some false
  /\ fst succeeded = map (transformModel providerId) models
  /\ forall between : Store,
       let late := fetchModels_settle providerId (Abrupt error) between in
       fst late = []
       /\ modelLoadError (snd late) !! providerId
          = Some (Some match error with
                       | ErrorObj _ message => message
                       | ThrownValue _ => "Unknown error"
                       end)
       /\ availableModels (snd late) = availableModels between
       /\ isLoadingModels (snd late) !! providerId = Some false.
Proof.
  intros failed succeeded.
  pose proof (fetchModelsForProvider_failed providerMetadata providerId st config
                metadata listModels error Hconfig Hmeta Hlist Hthrow) as Hfail.
  fold failed in Hfail. destruct failed as [result st1] eqn:Hf.
  destruct Hfail as (Hres & Herr & Hcache & Hload & Hcreds).
  assert (Hconfig1 : providerCredentials st1 !! providerId = Some config)
    by now rewrite Hcreds.
  pose proof (fetchModelsForProvider_succeeded providerMetadata' providerId st1 config
                metadata' listModels' models Hconfig1 Hmeta' Hlist' Hok) as Hsucc.
  subst succeeded. simpl.
  destruct (fetchModelsForProvider providerMetadata' providerId st1) as [result' st2].
  destruct Hsucc as (Hres' & Herr' & _ & Hload').
  simpl. repeat split; try assumption; apply lookup_insert_eq.
Qed.

(** Ollama with a model list cached from an earlier session: the vendor
    is first unreachable, then answers. *)
Lemma fetchModelsForProvider_error_handling_witness :
  let st := set_availableModels <["ollama" := [oneModel]]> seededStore in
  let failed := fetchModelsForProvider offlineTable "ollama" st in
  let succeeded := fetchModelsForProvider onlineTable "ollama" (snd failed) in
  fst failed = []
  /\ modelLoadError (snd failed) !! "ollama" = Some (Some "Failed to fetch")
  /\ availableModels (snd failed) = availableModels st
  /\ isLoadingModels (snd failed) !! "ollama" = Some false
  /\ modelLoadError (snd succeeded) !! "ollama" = Some None
  /\ isLoadingModels (snd succeeded) !! "ollama" = Some false
  /\ fst succeeded = map (transformModel "ollama") [oneModel]
  /\ forall between : Store,
       let late := fetchModels_settle "ollama"
                        (Abrupt (ErrorObj "TypeError" "Failed to fetch")) between in
       fst late = []
       /\ modelLoadError (snd late) !! "ollama" = Some (Some "Failed to fetch")
       /\ availableModels (snd late) = availableModels between
       /\ isLoadingModels (snd late) !! "ollama" = Some false.
Proof.
  intros st.
  exact (fetchModelsForProvider_error_handling offlineTable onlineTable "ollama" st
           {[ "baseUrl" := VStr "http://localhost:11434/v1/" ]}
           (ollama isAbsoluteUrl_spec offlineListModels offlineFetch)
           (ollama isAbsoluteUrl_spec onlineListModels offlineFetch)
           (offlineListModels "ollama") (onlineListModels "ollama")
           (ErrorObj "TypeError" "Failed to fetch") [oneModel]
           eq_refl eq_refl eq_refl eq_refl eq_refl eq_refl eq_refl).
Defined.

(** ** The credentials watcher touches only the providers that changed *)

Section Watcher.

Variable providerMetadata : list (string * ProviderMetadata.t).
Variable stringify : Config -> string.

Lemma sameCatalogEntry_refl providerId st : sameCatalogEntry providerId st st.
Proof. repeat split. Qed.

Lemma sameCatalogEntry_trans providerId st1 st2 st3 :
  sameCatalogEntry providerId st1 st2 ->
  sameCatalogEntry providerId st2 st3 ->
  sameCatalogEntry providerId st1 st3.
Proof.
  intros (H1 & H2 & H3) (H4 & H5 & H6).
  repeat split; etransitivity; eassumption.
Qed.

Lemma fetchModels_begin_frame other providerId st :
  other <> providerId ->
  sameCatalogEntry other st (snd (fetchModels_begin providerMetadata providerId st)).
Proof.
  intros Hne. unfold fetchModels_begin.
  destruct (providerCredentials st !! providerId); [|apply sameCatalogEntry_refl].
  destruct (metadataOf providerMetadata providerId); [|apply sameCatalogEntry_refl].
  repeat split; simpl; rewrite ?lookup_insert_ne by congruence; reflexivity.
Qed.

Lemma fetchModels_settle_frame other providerId pending st :
  other <> providerId ->
  sameCatalogEntry other st (snd (fetchModels_settle providerId pending st)).
Proof.
  intros Hne. destruct pending; repeat split; simpl;
    rewrite ?lookup_insert_ne by congruence; reflexivity.
Qed.

Lemma beginFetches_frame other targets : forall st,
  other ∉ targets ->
  sameCatalogEntry other st (snd (beginFetches providerMetadata targets st))
  /\ Forall (fun pending => fst pending <> other)
            (fst (beginFetches providerMetadata targets st)).
Proof.
  induction targets as [|providerId rest IH]; intros st Hnotin; simpl.
  - split; [apply sameCatalogEntry_refl | constructor].
  - apply not_elem_of_cons in Hnotin as [Hne Hrest].
    pose proof (fetchModels_begin_frame other providerId st Hne) as Hbegin.
    destruct (fetchModels_begin providerMetadata providerId st) as [[pending|] st1];
      simpl in Hbegin; destruct (IH st1 Hrest) as [Hframe Hids].
    + destruct (beginFetches providerMetadata rest st1) as [pendings st2]; simpl in *.
      split; [eapply sameCatalogEntry_trans; eassumption|].
      constructor; [simpl; congruence | assumption].
    + split; [eapply sameCatalogEntry_trans; eassumption | assumption].
Qed.

Lemma settleFetches_frame other pendings : forall st,
  Forall (fun pending : string * Completion (list ModelInfo.t) => fst pending <> other)
         pendings ->
  sameCatalogEntry other st (settleFetches pendings st).
Proof.
  induction pendings as [|[providerId pending] rest IH]; intros st Hall; simpl.
  - apply sameCatalogEntry_refl.
  - inversion Hall as [|? ? Hne Hrest]; subst. simpl in Hne.
    eapply sameCatalogEntry_trans; [|apply IH; assumption].
    apply fetchModels_settle_frame. congruence.
Qed.

Lemma unchanged_not_in_changedProviders other newCreds oldCreds :
  (oldCreds ≫= (fun o => o !! other)) = newCreds !! other ->
  other ∉ changedProviders stringify newCreds oldCreds.
Proof.
  intros Hsame Hin. unfold changedProviders in Hin.
  apply list_elem_of_filter in Hin as [Hdiff _].
  apply Hdiff. now rewrite Hsame.
Qed.

End Watcher.

(** C7.  When provider B's stored config is what it was in the previous
    snapshot, the credentials watcher does not call
    [fetchModelsForProvider] for B, and B's entries of [isLoadingModels],
    [modelLoadError] and [availableModels] are the same after the watcher
    has run, and after any of the fetches it started have settled, in any
    order. *)
Theorem credentials_watcher_frame
    (providerMetadata : list (string * ProviderMetadata.t))
    (stringify : Config -> string)
    (st : Store) (oldCreds : option (gmap string Config)) (B : string)
    (Hunchanged : (oldCreds ≫= (fun o => o !! B)) = providerCredentials st !! B) :
  (B ∉ fetchTargets providerMetadata stringify st oldCreds)
  /\ sameCatalogEntry B st (snd (onCredentialsChanged providerMetadata stringify oldCreds st))
  /\ forall settling,
       settling ⊆ fst (onCredentialsChanged providerMetadata stringify oldCreds st) ->
       sameCatalogEntry B st
         (settleFetches settling
            (snd (onCredentialsChanged providerMetadata stringify oldCreds st))).
Proof.
  assert (Hnotin : B ∉ fetchTargets providerMetadata stringify st oldCreds).
  { unfold fetchTargets. intros Hin. apply list_elem_of_filter in Hin as [_ Hin].
    revert Hin. now apply unchanged_not_in_changedProviders. }
  destruct (beginFetches_frame providerMetadata B _ st Hnotin) as [Hframe Hids].
  split; [exact Hnotin|]. split; [exact Hframe|].
  intros settling Hsub.
  eapply sameCatalogEntry_trans; [exact Hframe|].
  apply settleFetches_frame.
  apply Forall_forall. intros pending Hin.
  apply Hsub in Hin. unfold onCredentialsChanged in Hin.
  rewrite Forall_forall in Hids. now apply Hids.
Qed.

(** Provider A (Ollama) gets a new base URL while B (OpenRouter) keeps
    its config. *)
Lemma credentials_watcher_frame_witness :
  let st := set_providerCredentials
              <["ollama" := {[ "baseUrl" := VStr "http://10.0.0.2:11434/v1/" ]}]>
              (set_configuredProviders <["ollama" := true]> seededStore) in
  let stringify := fun config : Config => String_of_value (prop config "baseUrl") in
  let B := "openrouter-ai" in
  (B ∉ fetchTargets onlineTable stringify st (Some seededCredentials))
  /\ sameCatalogEntry B st
       (snd (onCredentialsChanged onlineTable stringify (Some seededCredentials) st))
  /\ forall settling,
       settling ⊆ fst (onCredentialsChanged onlineTable stringify (Some seededCredentials) st) ->
       sameCatalogEntry B st
         (settleFetches settling
            (snd (onCredentialsChanged onlineTable stringify (Some seededCredentials) st))).
Proof.
  intros st stringify B.
  apply (credentials_watcher_frame onlineTable stringify st (Some seededCredentials) B).
  vm_compute. reflexivity.
Defined.

(** In that run the watcher does fetch for the provider that changed. *)
Example credentials_watcher_fetches_changed :
  fetchTargets onlineTable (fun config => String_of_value (prop config "baseUrl"))
    (set_providerCredentials
       <["ollama" := {[ "baseUrl" := VStr "http://10.0.0.2:11434/v1/" ]}]>
       (set_configuredProviders <["ollama" := true]> seededStore))
    (Some seededCredentials)
  = ["ollama"].
Proof. vm_compute. reflexivity. Qed.

(** ** The availability filter *)

Section AvailabilityFilter.

Variable providerMetadata : list (string * ProviderMetadata.t).
Variable t : string -> string -> string.






End AvailabilityFilter.






(** ** The validating counter of a settings page *)

Section PageProperties.

Variable providerMetadata : list (string * ProviderMetadata.t).
Variable t : string -> string -> string.
Variable tValidationError : string -> string.
Variable providerId : string.

Lemma counted_setField key value page :
  counted page -> counted (setField providerId key value page).
Proof. exact id. Qed.

Lemma counted_settled outcome page :
  isValidating page = Z.of_nat (inFlight page) + 1 ->
  counted (settled tValidationError outcome page).
Proof.
  intros H. unfold counted, settled, inFlight in *.
  destruct outcome; simpl; rewrite length_app; simpl; lia.
Qed.

Lemma counted_validateConfiguration page :
  counted page -> counted (validateConfiguration providerMetadata t tValidationError providerId page).
Proof.
  intros H. unfold validateConfiguration.
  destruct (pageMetadata providerMetadata t providerId) as [localized|]; [|exact H].
  match goal with |- context [bindC ?c ?k] => destruct (bindC c k) as [config|error] end.
  - unfold counted, inFlight in *. simpl. rewrite length_app. simpl. lia.
  - apply counted_settled. unfold counted, inFlight in *. simpl. lia.
Qed.

Lemma counted_step ev page :
  clears providerId ev page = false ->
  counted page -> counted (step providerMetadata t tValidationError providerId ev page).
Proof.
  intros Hquiet H. destruct ev; simpl in *; try exact H; try discriminate.
  - (* Mounted *)
    unfold onMounted.
    destruct (initializeProvider providerMetadata providerId (store page)); [|exact H].
    match goal with |- context [trim_value ?v] => destruct (trim_value v) end; [|exact H].
    match goal with |- context [String.eqb ?a ?b] => destruct (String.eqb a b) end;
      [exact H | apply counted_validateConfiguration; exact H].
  - (* DebounceFired *)
    unfold debouncedValidateConfiguration.
    destruct (trim_value (field providerId "apiKey" page)); [|exact H].
    rewrite Hquiet. apply counted_validateConfiguration; exact H.
  - (* HookSettled *)
    destruct (awaited page !! i) as [outcome|] eqn:Hi; [|exact H].
    apply counted_settled. unfold counted, inFlight in *. simpl.
    rewrite length_delete by eauto.
    apply lookup_lt_Some in Hi. lia.
  - (* TimerFired *)
    destruct (timers page !! i) as [message|] eqn:Hi; [|exact H].
    unfold counted, inFlight in *. simpl.
    rewrite length_delete by eauto.
    apply lookup_lt_Some in Hi. lia.
Qed.

Lemma counted_run events : forall page,
  neverCleared providerMetadata t tValidationError providerId events page = true ->
  counted page -> counted (run providerMetadata t tValidationError providerId events page).
Proof.
  induction events as [|ev rest IH]; intros page Hquiet H; simpl in *.
  - exact H.
  - apply andb_prop in Hquiet as [Hev Hrest].
    apply IH; [exact Hrest|].
    apply counted_step; [now apply negb_true_iff | exact H].
Qed.

End PageProperties.

(** C8, as the code has it.  [isValidating] is a counter, incremented by
    each validation call and decremented by that call's completion
    handler: along a run in which neither the reset handler nor the
    empty-key branch of the debounced function executes, it equals the
    number of validation calls whose completion handler has not run, so
    it is 0 exactly when all of them have completed.  Those two steps
    write 0 to it whatever is in flight. *)
Theorem isValidating_counts_in_flight
    (providerMetadata : list (string * ProviderMetadata.t))
    (t : string -> string -> string) (tValidationError : string -> string)
    (providerId : string) (events : list Event) (page : Page)
    (Hquiet : neverCleared providerMetadata t tValidationError providerId events page = true)
    (Hstart : isValidating page = Z.of_nat (inFlight page)) :
  let page' := run providerMetadata t tValidationError providerId events page in
  isValidating page' = Z.of_nat (inFlight page')
  /\ (isValidating page' = 0 <-> inFlight page' = 0%nat)
  /\ forall ev,
       clears providerId ev page' = true ->
       is_Some (metadataOf providerMetadata providerId) ->
       isValidating (step providerMetadata t tValidationError providerId ev page') = 0
       /\ inFlight (step providerMetadata t tValidationError providerId ev page')
          = inFlight page'.
Proof.
  intros page'.
  assert (Hcount : isValidating page' = Z.of_nat (inFlight page'))
    by (apply counted_run; assumption).
  split; [exact Hcount|]. split; [rewrite Hcount; lia|].
  intros ev Hclears [descriptor Hmeta].
  destruct ev; simpl in Hclears; try discriminate; simpl.
  - unfold debouncedValidateConfiguration.
    destruct (trim_value (field providerId "apiKey" page')); [|discriminate].
    rewrite Hclears. split; reflexivity.
  - unfold handleResetSettings, pageMetadata, getProviderMetadata. rewrite Hmeta.
    split; reflexivity.
Qed.

(** A run of the xAI page with two overlapping validations: the counter
    is 0 at the end, when both completion handlers have run. *)
Lemma isValidating_counts_in_flight_witness :
  let page' := xaiRun [Mounted; SetApiKey (VStr "xai-1234"); WatchFired; DebounceFired;
                       HookSettled 0; TimerFired 0; HookSettled 0; TimerFired 0]
                      (newPage xaiStore) in
  isValidating page' = Z.of_nat (inFlight page')
  /\ (isValidating page' = 0 <-> inFlight page' = 0%nat)
  /\ forall ev,
       clears "xai" ev page' = true ->
       is_Some (metadataOf offlineTable "xai") ->
       isValidating (xaiStep ev page') = 0
       /\ inFlight (xaiStep ev page') = inFlight page'.
Proof.
  apply (isValidating_counts_in_flight offlineTable untranslated
           (fun error => "Validation error: " ++ error) "xai"
           [Mounted; SetApiKey (VStr "xai-1234"); WatchFired; DebounceFired;
            HookSettled 0; TimerFired 0; HookSettled 0; TimerFired 0]
           (newPage xaiStore)).
  - vm_compute. reflexivity.
  - reflexivity.
Defined.

Example xaiRun_overlapping :
  map (fun events => (isValidating (xaiRun events (newPage xaiStore)),
                      inFlight (xaiRun events (newPage xaiStore))))
      [ [Mounted];
        [Mounted; SetApiKey (VStr "xai-1234"); WatchFired; DebounceFired];
        [Mounted; SetApiKey (VStr "xai-1234"); WatchFired; DebounceFired;
         HookSettled 0; TimerFired 0];
        [Mounted; SetApiKey (VStr "xai-1234"); WatchFired; DebounceFired;
         HookSettled 0; TimerFired 0; HookSettled 0; TimerFired 0] ]
  = [ (1, 1%nat); (2, 2%nat); (1, 1%nat); (0, 0%nat) ].
Proof. vm_compute. reflexivity. Qed.

(** C8 as stated does not hold: the page is mounted with a stored key, so
    a validation call starts; the user resets the settings before the
    hook has answered.  The reset writes 0 to the counter while that call
    is in flight, and the call's completion handler then takes it to
    -1. *)
Lemma isValidating_zero_while_in_flight :
  isValidating (xaiRun [Mounted] (newPage xaiStore)) = 1
  /\ inFlight (xaiRun [Mounted] (newPage xaiStore)) = 1%nat
  /\ isValidating (xaiRun [Mounted; ResetClicked] (newPage xaiStore)) = 0
  /\ inFlight (xaiRun [Mounted; ResetClicked] (newPage xaiStore)) = 1%nat
  /\ isValidating (xaiRun [Mounted; ResetClicked; HookSettled 0; TimerFired 0]
                     (newPage xaiStore)) = -1.
Proof. repeat split; vm_compute; reflexivity. Qed.

(** ** Reset to defaults *)

Lemma handleResetSettings_stored
    (providerMetadata : list (string * ProviderMetadata.t))
    (t : string -> string -> string) (tValidationError : string -> string)
    (providerId : string) (page : Page) :
  is_Some (metadataOf providerMetadata providerId) ->
  providerCredentials
    (store (handleResetSettings providerMetadata t providerId page)) !! providerId
  = Some ∅.
Proof.
  intros [descriptor Hmeta].
  unfold handleResetSettings, pageMetadata, getProviderMetadata. rewrite Hmeta. simpl.
  rewrite lookup_insert_eq. now destruct (ProviderMetadata.defaultOptions descriptor).
Qed.

(** C2 on the code.  The descriptor's [defaultOptions] returns
    [{baseUrl: 'http://localhost:11434/v1/'}], but after
    [handleResetSettings] the stored config of Ollama is the empty object:
    the function is spread, not called.  The previous config is replaced
    as a whole (nothing of it is left). *)
Theorem handleResetSettings_ollama :
  let page := handleResetSettings offlineTable untranslated "ollama" (newPage ollamaStore) in
  (ProviderMetadata.defaultOptions <$> metadataOf offlineTable "ollama")
    ≫= (fun defaultOptions => (fun f => f tt) <$> defaultOptions)
  = Some ({[ "baseUrl" := VStr "http://localhost:11434/v1/" ]} : Config)
  /\ providerCredentials (store page) !! "ollama" = Some ∅
  /\ providerCredentials (store page) !! "ollama"
     <> Some ({[ "baseUrl" := VStr "http://localhost:11434/v1/" ]} : Config).
Proof.
  intros page. split; [vm_compute; reflexivity|].
  assert (H : providerCredentials (store page) !! "ollama" = Some ∅)
    by (vm_compute; reflexivity).
  split; [exact H|].
  rewrite H. intros Heq. apply (f_equal (fun o => o ≫= (fun c : Config => c !! "baseUrl"))) in Heq.
  vm_compute in Heq. discriminate.
Qed.

(** ** The configuration status tracker and store creation *)

Section StatusTracker.

Variable providerMetadata : list (string * ProviderMetadata.t).

Lemma validateProvider_reads_credentials providerId st st' :
  providerCredentials st' = providerCredentials st ->
  validateProvider providerMetadata providerId st'
  = validateProvider providerMetadata providerId st.
Proof. intros H. unfold validateProvider. now rewrite H. Qed.

Lemma updateStatusOf_frame providerId st :
  providerCredentials (updateStatusOf providerMetadata providerId st) = providerCredentials st
  /\ availableModels (updateStatusOf providerMetadata providerId st) = availableModels st
  /\ isLoadingModels (updateStatusOf providerMetadata providerId st) = isLoadingModels st
  /\ modelLoadError (updateStatusOf providerMetadata providerId st) = modelLoadError st.
Proof.
  unfold updateStatusOf.
  destruct (validateProvider providerMetadata providerId st); repeat split.
Qed.

Lemma updateStatus_fold keys : forall st,
  let st' := fold_left (fun s key => updateStatusOf providerMetadata key s) keys st in
  providerCredentials st' = providerCredentials st
  /\ availableModels st' = availableModels st
  /\ isLoadingModels st' = isLoadingModels st
  /\ modelLoadError st' = modelLoadError st
  /\ forall providerId,
       configuredProviders st' !! providerId =
         if bool_decide (providerId ∈ keys)
         then Some (validates providerMetadata providerId st)
         else configuredProviders st !! providerId.
Proof.
  induction keys as [|key rest IH]; intros st; simpl.
  - repeat split.
  - destruct (IH (updateStatusOf providerMetadata key st)) as (Hc & Hm & Hl & He & Hconf).
    destruct (updateStatusOf_frame key st) as (Hc1 & Hm1 & Hl1 & He1).
    repeat split; try (etransitivity; eassumption).
    intros providerId. rewrite Hconf.
    destruct (bool_decide (providerId ∈ rest)) eqn:Hrest.
    + apply bool_decide_eq_true in Hrest.
      rewrite bool_decide_eq_true_2 by (now apply elem_of_cons; right).
      unfold validates. now rewrite (validateProvider_reads_credentials _ _ _ Hc1).
    + apply bool_decide_eq_false in Hrest.
      destruct (decide (providerId = key)) as [->|Hne].
      * rewrite bool_decide_eq_true_2 by apply list_elem_of_here.
        apply updateStatusOf_configured.
      * rewrite bool_decide_eq_false_2
          by (intros Hin; apply elem_of_cons in Hin as [?|?]; contradiction).
        unfold updateStatusOf.
        destruct (validateProvider providerMetadata key st); simpl;
          now rewrite lookup_insert_ne by congruence.
Qed.

Lemma lookupTable_key (table : list (string * ProviderMetadata.t)) providerId :
  providerId ∈ map fst table <-> is_Some (lookupTable table providerId).
Proof.
  induction table as [|[key descriptor] rest IH]; simpl.
  - split; [intros H; inversion H | intros [? H]; discriminate].
  - destruct (String.eqb_spec key providerId) as [->|Hne].
    + split; [eauto | intros _; apply list_elem_of_here].
    + rewrite <- IH. rewrite elem_of_cons. split; [intros [?|?]; congruence || assumption | auto].
Qed.

Lemma initializeProvider_frame providerId st st' :
  is_Some (metadataOf providerMetadata providerId) ->
  initializeProvider providerMetadata providerId st = Normal st' ->
  configuredProviders st' = configuredProviders st
  /\ availableModels st' = availableModels st
  /\ isLoadingModels st' = isLoadingModels st
  /\ modelLoadError st' = modelLoadError st
  /\ (forall other, other <> providerId ->
        providerCredentials st' !! other = providerCredentials st !! other)
  /\ (forall config, providerCredentials st !! providerId = Some config ->
        providerCredentials st' !! providerId = Some config)
  /\ (providerCredentials st !! providerId = None ->
        exists baseUrl, providerCredentials st' !! providerId
                        = Some {[ "baseUrl" := baseUrl ]}).
Proof.
  intros [metadata Hmeta]. unfold initializeProvider. rewrite Hmeta.
  destruct (providerCredentials st !! providerId) as [config|] eqn:Hconfig.
  - intros [= <-]. repeat split; auto.
    + intros config' [= <-]. exact Hconfig.
    + discriminate.
  - intros [= <-]. simpl. repeat split.
    + intros other Hne. now rewrite lookup_insert_ne by congruence.
    + discriminate.
    + intros _. eexists. apply lookup_insert_eq.
Qed.

Lemma initializeProvider_succeeds providerId st :
  is_Some (metadataOf providerMetadata providerId) ->
  exists st', initializeProvider providerMetadata providerId st = Normal st'.
Proof.
  intros [metadata Hmeta]. unfold initializeProvider.
  destruct (providerCredentials st !! providerId); [eauto|].
  rewrite Hmeta. eauto.
Qed.

Lemma initializeAll_spec keys : forall st,
  (forall key, key ∈ keys -> is_Some (metadataOf providerMetadata key)) ->
  exists st',
    initializeAll providerMetadata keys st = Normal st'
    /\ configuredProviders st' = configuredProviders st
    /\ availableModels st' = availableModels st
    /\ isLoadingModels st' = isLoadingModels st
    /\ modelLoadError st' = modelLoadError st
    /\ (forall providerId config,
          providerCredentials st !! providerId = Some config ->
          providerCredentials st' !! providerId = Some config)
    /\ (forall providerId, providerId ∉ keys ->
          providerCredentials st' !! providerId = providerCredentials st !! providerId)
    /\ (forall providerId, providerId ∈ keys ->
          providerCredentials st !! providerId = None ->
          exists baseUrl, providerCredentials st' !! providerId
                          = Some {[ "baseUrl" := baseUrl ]}).
Proof.
  induction keys as [|key rest IH]; intros st Hkeys; simpl.
  - exists st. repeat split; auto. intros ? H; inversion H.
  - destruct (initializeProvider_succeeds key st) as (st1 & H1).
    { apply Hkeys. apply list_elem_of_here. }
    rewrite H1. simpl.
    destruct (initializeProvider_frame key st st1) as (Hc & Hm & Hl & He & Hother & Hkeep & Hseed);
      [apply Hkeys; apply list_elem_of_here | exact H1 |].
    destruct (IH st1) as (st' & Hrun & Hc' & Hm' & Hl' & He' & Hkeep' & Hout' & Hseed').
    { intros k Hk. apply Hkeys. now apply elem_of_cons; right. }
    exists st'. split; [exact Hrun|].
    repeat split; try (etransitivity; eassumption).
    + intros providerId config Hconfig. apply Hkeep'.
      destruct (decide (providerId = key)) as [->|Hne]; [now apply Hkeep|].
      now rewrite Hother.
    + intros providerId Hnotin. apply not_elem_of_cons in Hnotin as [Hne Hnotin].
      rewrite Hout' by assumption. now apply Hother.
    + intros providerId Hin Hnone.
      destruct (decide (providerId = key)) as [->|Hne].
      * destruct (Hseed Hnone) as [baseUrl Hseeded].
        exists baseUrl. now apply Hkeep'.
      * apply elem_of_cons in Hin as [?|Hin]; [contradiction|].
        apply Hseed'; [assumption|]. now rewrite Hother.
Qed.

End StatusTracker.

Lemma validates_true providerMetadata providerId st :
  validates providerMetadata providerId st = true
  <-> validateProvider providerMetadata providerId st = Normal true.
Proof.
  unfold validates.
  destruct (validateProvider providerMetadata providerId st) as [b|e]; split;
    intros H; try discriminate; [now subst | now inversion H].
Qed.

(** X1.  [updateConfigurationStatus] leaves the credentials alone and
    records, for every key of the table, whether [validateProvider]
    resolves to [true] on them (a rejection counts as [false]); entries of
    [configuredProviders] for other ids are kept.  Afterwards
    [availableProviders] lists exactly the keys whose validation resolved
    to [true]. *)
Theorem updateConfigurationStatus_records
    (providerMetadata : list (string * ProviderMetadata.t)) (st : Store) :
  let st' := updateConfigurationStatus providerMetadata st in
  providerCredentials st' = providerCredentials st
  /\ (forall providerId, providerId ∈ map fst providerMetadata ->
        configuredProviders st' !! providerId
        = Some (validates providerMetadata providerId st))
  /\ (forall providerId, providerId ∉ map fst providerMetadata ->
        configuredProviders st' !! providerId = configuredProviders st !! providerId)
  /\ (forall providerId,
        providerId ∈ availableProviders providerMetadata st'
        <-> providerId ∈ map fst providerMetadata
            /\ validateProvider providerMetadata providerId st = Normal true).
Proof.
  intros st'.
  destruct (updateStatus_fold providerMetadata (map fst providerMetadata) st)
    as (Hc & _ & _ & _ & Hconf).
  fold (updateConfigurationStatus providerMetadata st) in Hc, Hconf. fold st' in Hc, Hconf.
  split; [exact Hc|]. split; [|split].
  - intros providerId Hin. rewrite Hconf. now rewrite bool_decide_eq_true_2.
  - intros providerId Hnotin. rewrite Hconf. now rewrite bool_decide_eq_false_2.
  - intros providerId. unfold availableProviders.
    rewrite list_elem_of_In, filter_In, <- list_elem_of_In.
    split; intros [Hin Hok]; (split; [exact Hin|]).
    + rewrite Hconf, bool_decide_eq_true_2 in Hok by assumption.
      simpl in Hok. now apply validates_true.
    + rewrite Hconf, bool_decide_eq_true_2 by assumption.
      simpl. now apply validates_true.
Qed.

(** X2.  Over persisted credentials that are a map from ids to config
    objects, which is what the store itself writes, creating the store
    succeeds: every persisted config is kept as it is, every key of the
    table without a persisted config gets one that consists of a
    [baseUrl] only, ids outside the table get nothing, the model catalog
    starts empty, and the configuration status of every key of the table
    is the outcome of its validation. *)
Theorem createStore_initializes
    (providerMetadata : list (string * ProviderMetadata.t))
    (persisted : gmap string Config) :
  exists st,
    createStore providerMetadata persisted = Normal st
    /\ (forall providerId config,
          persisted !! providerId = Some config ->
          getProviderConfig providerId st = Some config)
    /\ (forall providerId,
          providerId ∈ map fst providerMetadata ->
          persisted !! providerId = None ->
          exists baseUrl, getProviderConfig providerId st = Some {[ "baseUrl" := baseUrl ]})
    /\ (forall providerId,
          providerId ∉ map fst providerMetadata ->
          getProviderConfig providerId st = persisted !! providerId)
    /\ availableModels st = ∅ /\ isLoadingModels st = ∅ /\ modelLoadError st = ∅
    /\ (forall providerId,
          providerId ∈ map fst providerMetadata ->
          configuredProviders st !! providerId
          = Some (validates providerMetadata providerId st)).
Proof.
  unfold createStore, getProviderConfig.
  destruct (initializeAll_spec providerMetadata (map fst providerMetadata)
              (set_providerCredentials (fun _ => persisted) emptyStore))
    as (st1 & Hrun & _ & Hm & Hl & He & Hkeep & Hout & Hseed).
  { intros key Hkey. now apply lookupTable_key. }
  rewrite Hrun. simpl.
  destruct (updateStatus_fold providerMetadata (map fst providerMetadata) st1)
    as (Hc & Hm' & Hl' & He' & Hconf).
  fold (updateConfigurationStatus providerMetadata st1) in Hc, Hm', Hl', He', Hconf.
  eexists. split; [reflexivity|].
  rewrite Hc, Hm', Hl', He', Hm, Hl, He. simpl.
  repeat split.
  - intros providerId config Hp. now apply Hkeep.
  - intros providerId Hin Hnone. now apply Hseed.
  - intros providerId Hnotin. now apply Hout.
  - intros providerId Hin. rewrite Hconf, bool_decide_eq_true_2 by assumption.
    unfold validates. now rewrite (validateProvider_reads_credentials _ _ _ _ Hc).
Qed.

Lemma createStore_catalog_empty providerMetadata persisted st :
  createStore providerMetadata persisted = Normal st ->
  availableModels st = ∅ /\ isLoadingModels st = ∅ /\ modelLoadError st = ∅.
Proof.
  unfold createStore. intros Hcreate.
  destruct (initializeAll_spec providerMetadata (map fst providerMetadata)
              (set_providerCredentials (fun _ => persisted) emptyStore))
    as (st1 & Hrun & _ & Hm & Hl & He & _).
  { intros key Hkey. now apply lookupTable_key. }
  rewrite Hrun in Hcreate. simpl in Hcreate. inversion Hcreate; subst.
  destruct (updateStatus_fold providerMetadata (map fst providerMetadata) st1)
    as (_ & Hm' & Hl' & He' & _).
  unfold updateConfigurationStatus. rewrite Hm', Hl', He', Hm, Hl, He. repeat split.
Qed.

(** ** The model catalog *)

Section CatalogProperties.

Variable providerMetadata : list (string * ProviderMetadata.t).

Lemma fetchModelsForProvider_cases providerId st :
  (fetchModelsForProvider providerMetadata providerId st = ([], st)
   /\ (providerCredentials st !! providerId = None
       \/ metadataOf providerMetadata providerId = None))
  \/ exists config metadata outcome,
       providerCredentials st !! providerId = Some config
       /\ metadataOf providerMetadata providerId = Some metadata
       /\ outcome = match ProviderMetadata.listModels metadata with
                    | Some listModels => listModels config
                    | None => Normal []
                    end
       /\ fetchModelsForProvider providerMetadata providerId st
          = fetchModels_settle providerId outcome
              (set_modelLoadError <[providerId := None]>
                 (set_isLoadingModels <[providerId := true]> st)).
Proof.
  unfold fetchModelsForProvider, fetchModels_begin.
  destruct (providerCredentials st !! providerId) as [config|]; [|left; auto].
  destruct (metadataOf providerMetadata providerId) as [metadata|]; [|left; auto].
  right. exists config, metadata. eexists. repeat split.
Qed.

Lemma fetchModels_settle_tagged providerId outcome st :
  catalogTagged st ->
  catalogTagged (snd (fetchModels_settle providerId outcome st))
  /\ Forall (fun model => ModelInfo.provider model = providerId)
            (fst (fetchModels_settle providerId outcome st)).
Proof.
  intros Htag. destruct outcome as [models|error]; simpl.
  - assert (Hnew : Forall (fun model => ModelInfo.provider model = providerId)
                     (map (transformModel providerId) models))
      by (apply Forall_map, Forall_forall; reflexivity).
    split; [|exact Hnew].
    intros other cached. simpl. rewrite lookup_insert.
    case_decide as Heq; [intros [= <-]; now subst | apply Htag].
  - split; [exact Htag | constructor].
Qed.

Lemma fetchModelsForProvider_loading fetched providerId st :
  isLoadingModels (snd (fetchModelsForProvider providerMetadata fetched st)) !! providerId
    = isLoadingModels st !! providerId
  \/ isLoadingModels (snd (fetchModelsForProvider providerMetadata fetched st)) !! providerId
     = Some false.
Proof.
  destruct (fetchModelsForProvider_cases fetched st)
    as [[-> _] | (config & metadata & outcome & _ & _ & _ & ->)]; [now left|].
  destruct (decide (fetched = providerId)) as [->|Hne].
  - right. destruct outcome; simpl; apply lookup_insert_eq.
  - left. destruct outcome; simpl; now rewrite !lookup_insert_ne by congruence.
Qed.

Lemma fetchModelsForProvider_keeps providerId st :
  providerCredentials (snd (fetchModelsForProvider providerMetadata providerId st))
    = providerCredentials st
  /\ configuredProviders (snd (fetchModelsForProvider providerMetadata providerId st))
     = configuredProviders st.
Proof.
  destruct (fetchModelsForProvider_cases providerId st)
    as [[-> _] | (config & metadata & outcome & _ & _ & _ & ->)]; [now split|].
  destruct outcome; split; reflexivity.
Qed.

Lemma fetchModelsForProvider_other fetched providerId st :
  fetched <> providerId ->
  sameCatalogEntry providerId st (snd (fetchModelsForProvider providerMetadata fetched st)).
Proof.
  intros Hne.
  destruct (fetchModelsForProvider_cases fetched st)
    as [[-> _] | (config & metadata & outcome & _ & _ & _ & ->)]; [repeat split|].
  destruct outcome; repeat split; simpl; now rewrite ?lookup_insert_ne by congruence.
Qed.

End CatalogProperties.

(** X3.  Whatever [listModels] does, [fetchModelsForProvider] either
    changes nothing and returns the empty list (the config or the
    descriptor is missing) or ends with [isLoadingModels[id]] false; it
    never changes the credentials or the configuration status, it leaves
    the catalog entries of every other provider as they were, and every
    model it returns is tagged with the provider id it was called with. *)
Theorem fetchModelsForProvider_releases
    (providerMetadata : list (string * ProviderMetadata.t))
    (providerId : string) (st : Store) :
  let result := fetchModelsForProvider providerMetadata providerId st in
  (result = ([], st) \/ isLoadingModels (snd result) !! providerId = Some false)
  /\ providerCredentials (snd result) = providerCredentials st
  /\ configuredProviders (snd result) = configuredProviders st
  /\ (forall other, other <> providerId -> sameCatalogEntry other st (snd result))
  /\ Forall (fun model => ModelInfo.provider model = providerId) (fst result).
Proof.
  intros result. subst result.
  destruct (fetchModelsForProvider_keeps providerMetadata providerId st) as [Hc Hconf].
  split; [|split; [exact Hc|split; [exact Hconf|split]]].
  - destruct (fetchModelsForProvider_cases providerMetadata providerId st)
      as [[-> _] | (config & metadata & outcome & _ & _ & _ & ->)]; [now left|].
    right. destruct outcome; simpl; apply lookup_insert_eq.
  - intros other Hne. apply fetchModelsForProvider_other. congruence.
  - destruct (fetchModelsForProvider_cases providerMetadata providerId st)
      as [[-> _] | (config & metadata & outcome & _ & _ & _ & ->)]; [constructor|].
    destruct outcome; simpl; [apply Forall_map, Forall_forall; reflexivity | constructor].
Qed.

(** X4.  For a provider whose descriptor has no [listModels], a fetch
    replaces whatever was cached for it by the empty list: the call
    returns the empty list, [getModelsForProvider] returns it afterwards,
    and no error is recorded. *)
Theorem fetchModelsForProvider_without_capability
    (providerMetadata : list (string * ProviderMetadata.t))
    (providerId : string) (st : Store) (config : Config) (metadata : ProviderMetadata.t)
    (Hconfig : providerCredentials st !! providerId = Some config)
    (Hmeta : metadataOf providerMetadata providerId = Some metadata)
    (Hnone : ProviderMetadata.listModels metadata = None) :
  let result := fetchModelsForProvider providerMetadata providerId st in
  fst result = []
  /\ availableModels (snd result) !! providerId = Some []
  /\ getModelsForProvider providerId (snd result) = []
  /\ modelLoadError (snd result) !! providerId = Some None
  /\ isLoadingModels (snd result) !! providerId = Some false.
Proof.
  intros result. subst result.
  unfold fetchModelsForProvider, fetchModels_begin, getModelsForProvider.
  rewrite Hconfig, Hmeta, Hnone. simpl.
  rewrite !lookup_insert_eq. repeat split.
Qed.

Lemma fetchModelsForProvider_without_capability_witness :
  let result := fetchModelsForProvider speechTable "player2-speech" speechStore in
  fst result = []
  /\ availableModels (snd result) !! "player2-speech" = Some []
  /\ getModelsForProvider "player2-speech" (snd result) = []
  /\ modelLoadError (snd result) !! "player2-speech" = Some None
  /\ isLoadingModels (snd result) !! "player2-speech" = Some false.
Proof.
  exact (fetchModelsForProvider_without_capability speechTable "player2-speech" speechStore
           {[ "baseUrl" := VStr "http://localhost:4315/v1/" ]}
           (player2_speech isAbsoluteUrl_spec) eq_refl eq_refl eq_refl).
Defined.

Section LoadModels.

Variable providerMetadata : list (string * ProviderMetadata.t).

Lemma catalogTagged_fetch providerId st :
  catalogTagged st ->
  catalogTagged (snd (fetchModelsForProvider providerMetadata providerId st)).
Proof.
  intros Htag.
  destruct (fetchModelsForProvider_cases providerMetadata providerId st)
    as [[-> _] | (config & metadata & outcome & _ & _ & _ & ->)]; [exact Htag|].
  apply fetchModels_settle_tagged.
  intros other cached. simpl. apply Htag.
Qed.

Lemma loadModelsLoop_spec providerIds : forall st,
  (forall providerId, providerId ∈ providerIds ->
     is_Some (metadataOf providerMetadata providerId)) ->
  exists st',
    loadModelsLoop providerMetadata providerIds st = Normal st'
    /\ providerCredentials st' = providerCredentials st
    /\ configuredProviders st' = configuredProviders st
    /\ (catalogTagged st -> catalogTagged st')
    /\ (forall providerId,
          isLoadingModels st' !! providerId = isLoadingModels st !! providerId
          \/ isLoadingModels st' !! providerId = Some false)
    /\ (forall providerId,
          (providerId ∉ providerIds
           \/ (ProviderMetadata.listModels <$> metadataOf providerMetadata providerId)
              = Some None) ->
          sameCatalogEntry providerId st st')
    /\ (forall providerId metadata listModels,
          providerId ∈ providerIds ->
          metadataOf providerMetadata providerId = Some metadata ->
          ProviderMetadata.listModels metadata = Some listModels ->
          is_Some (providerCredentials st !! providerId) ->
          isLoadingModels st' !! providerId = Some false).
Proof.
  induction providerIds as [|head rest IH]; intros st Hknown; simpl.
  - exists st. repeat split; auto. intros ? ? ? H; inversion H.
  - destruct (Hknown head) as [metadata Hmeta]; [apply list_elem_of_here|].
    rewrite Hmeta.
    assert (Hrest : forall providerId, providerId ∈ rest ->
                      is_Some (metadataOf providerMetadata providerId))
      by (intros p Hp; apply Hknown; now apply elem_of_cons; right).
    destruct (ProviderMetadata.listModels metadata) as [listModels|] eqn:Hlist.
    + set (st1 := snd (fetchModelsForProvider providerMetadata head st)).
      destruct (IH st1 Hrest) as (st' & Hrun & Hc & Hconf & Htag & Hload & Hframe & Hdone).
      destruct (fetchModelsForProvider_keeps providerMetadata head st) as [Hc1 Hconf1].
      fold st1 in Hc1, Hconf1.
      exists st'. split; [exact Hrun|].
      split; [congruence|]. split; [congruence|].
      split; [intros H; apply Htag; now apply catalogTagged_fetch|].
      split; [|split].
      * intros providerId.
        destruct (Hload providerId) as [H|H]; [|now right].
        rewrite H. apply fetchModelsForProvider_loading.
      * intros providerId Hout.
        eapply sameCatalogEntry_trans; [|apply Hframe].
        -- apply fetchModelsForProvider_other.
           destruct Hout as [Hnotin|Hnocap].
           ++ apply not_elem_of_cons in Hnotin as [Hne _]. congruence.
           ++ intros ->. rewrite Hmeta in Hnocap. simpl in Hnocap. congruence.
        -- destruct Hout as [Hnotin|Hnocap]; [left|now right].
           now apply not_elem_of_cons in Hnotin as [_ Hnotin].
      * intros providerId metadata' listModels' Hin Hmeta' Hlist' Hcreds.
        destruct (decide (providerId ∈ rest)) as [Hinrest|Hnotin].
        -- eapply Hdone; eauto. now rewrite Hc1.
        -- apply elem_of_cons in Hin as [->|Hin]; [|contradiction].
           destruct (Hload head) as [H|H]; [|exact H].
           rewrite H. subst st1.
           destruct Hcreds as [config Hconfig].
           rewrite (fetchModelsForProvider_unfold _ _ _ _ _ _ Hconfig Hmeta Hlist).
           destruct (listModels config); simpl; apply lookup_insert_eq.
    + destruct (IH st Hrest) as (st' & Hrun & Hc & Hconf & Htag & Hload & Hframe & Hdone).
      exists st'. split; [exact Hrun|].
      split; [exact Hc|]. split; [exact Hconf|]. split; [exact Htag|].
      split; [exact Hload|]. split.
      * intros providerId Hout. apply Hframe.
        destruct Hout as [Hnotin|Hnocap]; [left|now right].
        now apply not_elem_of_cons in Hnotin as [_ Hnotin].
      * intros providerId metadata' listModels' Hin Hmeta' Hlist' Hcreds.
        apply elem_of_cons in Hin as [->|Hin]; [congruence|].
        eapply Hdone; eauto.
Qed.

End LoadModels.

Lemma availableProviders_keys providerMetadata st providerId :
  providerId ∈ availableProviders providerMetadata st ->
  providerId ∈ map fst providerMetadata
  /\ configuredProviders st !! providerId = Some true.
Proof.
  unfold availableProviders. rewrite list_elem_of_In, filter_In, <- list_elem_of_In.
  intros [Hin Hok]. split; [exact Hin|].
  destruct (configuredProviders st !! providerId) as [[|]|]; simpl in Hok;
    congruence.
Qed.

(** X5.  [loadModelsForConfiguredProviders] never fails.  It leaves the
    credentials and the configuration status alone, does not touch the
    catalog entries of a provider that is not configured or has no
    [listModels], leaves no provider loading that was not loading before,
    and every configured provider with [listModels] and a stored config
    ends with [isLoadingModels] false. *)
Theorem loadModelsForConfiguredProviders_completes
    (providerMetadata : list (string * ProviderMetadata.t)) (st : Store) :
  exists st',
    loadModelsForConfiguredProviders providerMetadata st = Normal st'
    /\ providerCredentials st' = providerCredentials st
    /\ configuredProviders st' = configuredProviders st
    /\ (forall providerId,
          (providerId ∉ availableProviders providerMetadata st
           \/ (ProviderMetadata.listModels <$> metadataOf providerMetadata providerId)
              = Some None) ->
          sameCatalogEntry providerId st st')
    /\ (forall providerId,
          isLoadingModels st' !! providerId = isLoadingModels st !! providerId
          \/ isLoadingModels st' !! providerId = Some false)
    /\ (forall providerId metadata listModels,
          providerId ∈ availableProviders providerMetadata st ->
          metadataOf providerMetadata providerId = Some metadata ->
          ProviderMetadata.listModels metadata = Some listModels ->
          is_Some (providerCredentials st !! providerId) ->
          isLoadingModels st' !! providerId = Some false).
Proof.
  unfold loadModelsForConfiguredProviders.
  destruct (loadModelsLoop_spec providerMetadata
              (availableProviders providerMetadata st) st)
    as (st' & Hrun & Hc & Hconf & _ & Hload & Hframe & Hdone).
  { intros providerId Hin. apply availableProviders_keys in Hin as [Hin _].
    now apply lookupTable_key. }
  exists st'. repeat split; try assumption; try apply Hframe; assumption.
Qed.

Lemma settleFetches_tagged pendings : forall st,
  catalogTagged st -> catalogTagged (settleFetches pendings st).
Proof.
  induction pendings as [|[providerId pending] rest IH]; intros st Htag; simpl.
  - exact Htag.
  - apply IH. now apply fetchModels_settle_tagged.
Qed.

Lemma beginFetches_tagged providerMetadata targets : forall st,
  catalogTagged st -> catalogTagged (snd (beginFetches providerMetadata targets st)).
Proof.
  induction targets as [|providerId rest IH]; intros st Htag; simpl.
  - exact Htag.
  - assert (Hbegin : catalogTagged (snd (fetchModels_begin providerMetadata providerId st))).
    { unfold fetchModels_begin.
      destruct (providerCredentials st !! providerId); [|exact Htag].
      destruct (metadataOf providerMetadata providerId); [|exact Htag].
      exact Htag. }
    destruct (fetchModels_begin providerMetadata providerId st) as [[pending|] st1];
      simpl in Hbegin; specialize (IH st1 Hbegin).
    + now destruct (beginFetches providerMetadata rest st1).
    + exact IH.
Qed.

(** X6.  The tagging invariant of the catalog: every model cached under a
    provider id carries that id in its [provider] field.  It holds in a
    freshly created store and is kept by a fetch (whatever [listModels]
    returns, also models tagged with another provider), by the
    credentials watcher and the settling of the fetches it started, by
    [loadModelsForConfiguredProviders] and by [updateConfigurationStatus]. *)
Theorem catalogTagged_invariant
    (providerMetadata : list (string * ProviderMetadata.t))
    (stringify : Config -> string) :
  (forall persisted st,
     createStore providerMetadata persisted = Normal st -> catalogTagged st)
  /\ forall st, catalogTagged st ->
       (forall providerId,
          catalogTagged (snd (fetchModelsForProvider providerMetadata providerId st)))
       /\ (forall oldCreds pendings,
             catalogTagged
               (settleFetches pendings
                  (snd (onCredentialsChanged providerMetadata stringify oldCreds st))))
       /\ (forall st',
             loadModelsForConfiguredProviders providerMetadata st = Normal st' ->
             catalogTagged st')
       /\ catalogTagged (updateConfigurationStatus providerMetadata st).
Proof.
  split.
  - intros persisted st Hcreate.
    destruct (createStore_catalog_empty providerMetadata persisted st Hcreate) as [Hm _].
    intros providerId models. rewrite Hm, lookup_empty. discriminate.
  - intros st Htag. split; [|split; [|split]].
    + intros providerId. now apply catalogTagged_fetch.
    + intros oldCreds pendings. apply settleFetches_tagged.
      unfold onCredentialsChanged. now apply beginFetches_tagged.
    + intros st' Hload. unfold loadModelsForConfiguredProviders in Hload.
      destruct (loadModelsLoop_spec providerMetadata
                  (availableProviders providerMetadata st) st)
        as (st'' & Hrun & _ & _ & Hkeep & _).
      { intros providerId Hin. apply availableProviders_keys in Hin as [Hin _].
        now apply lookupTable_key. }
      rewrite Hrun in Hload. inversion Hload; subst. now apply Hkeep.
    + destruct (updateStatus_fold providerMetadata (map fst providerMetadata) st)
        as (_ & Hm & _).
      intros providerId models. unfold updateConfigurationStatus. rewrite Hm. apply Htag.
Qed.

(** X7.  In a store whose catalog is tagged, every model of
    [allAvailableModels] belongs to a provider that is a key of the table
    and is recorded as configured; a model is in the list exactly when it
    is cached for one of the [availableProviders]. *)
Theorem allAvailableModels_configured
    (providerMetadata : list (string * ProviderMetadata.t)) (st : Store)
    (Htag : catalogTagged st) :
  (forall model,
     model ∈ allAvailableModels providerMetadata st ->
     ModelInfo.provider model ∈ map fst providerMetadata
     /\ configuredProviders st !! ModelInfo.provider model = Some true)
  /\ (forall model,
        model ∈ allAvailableModels providerMetadata st
        <-> exists providerId,
              providerId ∈ availableProviders providerMetadata st
              /\ model ∈ getModelsForProvider providerId st).
Proof.
  assert (Hiff : forall model,
            model ∈ allAvailableModels providerMetadata st
            <-> exists providerId,
                  providerId ∈ availableProviders providerMetadata st
                  /\ model ∈ getModelsForProvider providerId st).
  { intros model. unfold allAvailableModels, getModelsForProvider.
    rewrite list_elem_of_In, in_flat_map.
    split; intros (providerId & Hin & Hmodel); exists providerId;
      rewrite ?list_elem_of_In in *; auto. }
  split; [|exact Hiff].
  intros model Hin. apply Hiff in Hin as (providerId & Hin & Hmodel).
  unfold getModelsForProvider in Hmodel.
  destruct (availableModels st !! providerId) as [models|] eqn:Hcache; simpl in Hmodel;
    [|inversion Hmodel].
  specialize (Htag _ _ Hcache). rewrite Forall_forall in Htag.
  rewrite (Htag _ Hmodel). now apply availableProviders_keys.
Qed.

Lemma catalogTagged_cachedStore : catalogTagged cachedStore.
Proof.
  intros providerId models. unfold cachedStore. simpl.
  rewrite lookup_insert. case_decide as Heq.
  - intros [= <-]. subst. repeat constructor.
  - rewrite lookup_empty. discriminate.
Qed.

Lemma allAvailableModels_configured_witness :
  (forall model,
     model ∈ allAvailableModels onlineTable cachedStore ->
     ModelInfo.provider model ∈ map fst onlineTable
     /\ configuredProviders cachedStore !! ModelInfo.provider model = Some true)
  /\ (forall model,
        model ∈ allAvailableModels onlineTable cachedStore
        <-> exists providerId,
              providerId ∈ availableProviders onlineTable cachedStore
              /\ model ∈ getModelsForProvider providerId cachedStore).
Proof.
  apply (allAvailableModels_configured onlineTable cachedStore).
  exact catalogTagged_cachedStore.
Defined.

Example allAvailableModels_cachedStore :
  allAvailableModels onlineTable cachedStore = [oneModel]
  /\ allAvailableModels onlineTable
       (set_configuredProviders <["ollama" := false]> cachedStore) = [].
Proof. split; vm_compute; reflexivity. Qed.

(** ** More on the credentials watcher *)



(** ** Instances and the category views *)

(** X9.  For a provider id that names neither a property inherited from
    [Object.prototype] nor a flag of the reactive proxy,
    [validateProvider] resolves to [false] exactly when the stored config
    or the descriptor is missing, and in exactly those cases
    [getProviderInstance] throws a not-found error without calling the
    factory: the one about credentials when the config is missing
    (whether or not there is a descriptor), the one about metadata
    otherwise.  For an id that names an inherited property and has no
    descriptor, both find the inherited value and fail with a
    [TypeError].  When config and descriptor are both present the outcome
    of [getProviderInstance] is that of the descriptor's factory on the
    stored config, exceptions included. *)
Theorem getProviderInstance_not_found
    {Instance : Type}
    (providerMetadata : list (string * ProviderMetadata.t))
    (createProvider : ProviderMetadata.t -> Config -> Completion Instance)
    (providerId : string) (st : Store) :
  (inheritedName providerId = false ->
   reactiveFlagName providerId = false ->
   (validateProvider providerMetadata providerId st = Normal false
    <-> providerCredentials st !! providerId = None
        \/ metadataOf providerMetadata providerId = None)
   /\ (providerCredentials st !! providerId = None ->
       getProviderInstance providerMetadata createProvider providerId st
       = Abrupt (ErrorObj "Error" ("Provider credentials for " ++ providerId ++ " not found")))
   /\ (is_Some (providerCredentials st !! providerId) ->
       metadataOf providerMetadata providerId = None ->
       getProviderInstance providerMetadata createProvider providerId st
       = Abrupt (ErrorObj "Error" ("Provider metadata for " ++ providerId ++ " not found"))))
  /\ (inheritedName providerId = true ->
      metadataOf providerMetadata providerId = None ->
      (exists message,
         validateProvider providerMetadata providerId st
         = Abrupt (ErrorObj "TypeError" message))
      /\ (exists message,
            getProviderInstance providerMetadata createProvider providerId st
            = Abrupt (ErrorObj "TypeError" message)))
  /\ (forall config metadata,
        providerCredentials st !! providerId = Some config ->
        metadataOf providerMetadata providerId = Some metadata ->
        getProviderInstance providerMetadata createProvider providerId st
        = createProvider metadata config).
Proof.
  unfold getProviderInstance, validateProvider.
  split; [|split].
  - intros Hname _. rewrite Hname.
    destruct (providerCredentials st !! providerId) as [config|].
    + destruct (metadataOf providerMetadata providerId) as [metadata|].
      * split; [|split; [discriminate|discriminate]].
        split; [|intros [?|?]; discriminate].
        destruct (ProviderMetadata.validateProviderConfig metadata config) as [r|e];
          simpl; [|discriminate].
        destruct (ValidationResult.valid r); discriminate.
      * split; [split; auto|]. split; [discriminate|reflexivity].
    + split; [split; auto|]. split; [reflexivity|].
      intros [? ?]; discriminate.
  - intros Hname Hmeta. rewrite Hname, Hmeta.
    destruct (providerCredentials st !! providerId); split; eexists; reflexivity.
  - intros config metadata -> ->. now destruct (createProvider metadata config).
Qed.

Example getProviderInstance_constructor :
  (exists message,
     validateProvider offlineTable "constructor" seededStore
     = Abrupt (ErrorObj "TypeError" message))
  /\ getProviderInstance offlineTable
       (fun metadata _ => Normal (ProviderMetadata.id metadata)) "constructor" seededStore
     = Abrupt (ErrorObj "TypeError" "metadata.createProvider is not a function")
  /\ getProviderInstance offlineTable
       (fun metadata _ => Normal (ProviderMetadata.id metadata)) "groq" seededStore
     = Abrupt (ErrorObj "Error" "Provider credentials for groq not found").
Proof. repeat split; try (eexists; vm_compute; reflexivity). Qed.

Section Views.

Variable providerMetadata : list (string * ProviderMetadata.t).
Variable t : string -> string -> string.

Lemma availableLoop_members todo : forall providers called result called',
  availableLoop providerMetadata t todo providers called = (Normal result, called') ->
  forall item, item ∈ result ->
    item ∈ providers
    \/ (item ∈ todo
        /\ exists descriptor,
             metadataOf providerMetadata (ProviderMetadata.id (metadata item))
             = Some descriptor
             /\ awaitIsAvailableBy descriptor = Normal true).
Proof.
  induction todo as [|provider rest IH]; intros providers called result called' Hrun item Hin.
  - simpl in Hrun. inversion Hrun; subst. now left.
  - simpl in Hrun. unfold getProviderMetadata in Hrun.
    destruct (metadataOf providerMetadata (ProviderMetadata.id (metadata provider)))
      as [descriptor|] eqn:Hmeta; [|discriminate].
    simpl in Hrun.
    destruct (awaitIsAvailableBy descriptor) as [isAvailable|] eqn:Hawait; [|discriminate].
    destruct (IH _ _ _ _ Hrun item Hin) as [Hacc | [Hrest Hok]].
    + destruct isAvailable; [|now left].
      apply elem_of_app in Hacc as [Hacc | Hhere]; [now left|].
      apply list_elem_of_singleton in Hhere as ->.
      right. split; [apply list_elem_of_here | eauto].
    + right. split; [now apply elem_of_cons; right | exact Hok].
Qed.

Lemma availableProvidersMetadata_members st item :
  item ∈ availableProvidersMetadata providerMetadata t st ->
  item ∈ allProvidersMetadata providerMetadata t st
  /\ exists descriptor,
       metadataOf providerMetadata (ProviderMetadata.id (metadata item)) = Some descriptor
       /\ awaitIsAvailableBy descriptor = Normal true.
Proof.
  unfold availableProvidersMetadata, availableProvidersCallback.
  destruct (availableLoop providerMetadata t (allProvidersMetadata providerMetadata t st) [] [])
    as [[result|e] called] eqn:Hrun; simpl; [|intros H; inversion H].
  intros Hin.
  destruct (availableLoop_members _ _ _ _ _ Hrun item Hin) as [Hnil | H];
    [inversion Hnil | exact H].
Qed.

Lemma ofCategory_members c l item :
  item ∈ ofCategory c l
  <-> item ∈ l /\ ProviderMetadata.category (metadata item) = c.
Proof.
  unfold ofCategory. rewrite list_elem_of_In, filter_In, <- list_elem_of_In.
  split; intros [Hin Hc]; (split; [exact Hin|]).
  - destruct (ProviderMetadata.category (metadata item)), c; simpl in Hc; congruence.
  - rewrite Hc. now destruct c.
Qed.

Lemma configuredOnly_members st l item :
  item ∈ configuredOnly st l
  <-> item ∈ l /\ configuredProviders st !! ProviderMetadata.id (metadata item) = Some true.
Proof.
  unfold configuredOnly. rewrite list_elem_of_In, filter_In, <- list_elem_of_In.
  split; intros [Hin Hc]; (split; [exact Hin|]).
  - destruct (configuredProviders st !! ProviderMetadata.id (metadata item)) as [[|]|];
      simpl in Hc; congruence.
  - now rewrite Hc.
Qed.

End Views.

(** X10.  The views offered to the settings pages.  An item of the chat,
    speech or transcription view is an item of [allProvidersMetadata] of
    that category whose availability predicate resolved to true, so a
    provider of category [embed] is in none of them and no item is in two
    of them; an item of a configured view is an item of the view of the
    same category that is recorded as configured. *)
Theorem category_views
    (providerMetadata : list (string * ProviderMetadata.t))
    (t : string -> string -> string) (st : Store) (item : LocalizedMetadata) :
  let views := [ (chat, allChatProvidersMetadata providerMetadata t st,
                  configuredChatProvidersMetadata providerMetadata t st);
                 (speech, allAudioSpeechProvidersMetadata providerMetadata t st,
                  configuredSpeechProvidersMetadata providerMetadata t st);
                 (transcription, allAudioTranscriptionProvidersMetadata providerMetadata t st,
                  configuredTranscriptionProvidersMetadata providerMetadata t st) ] in
  forall c all configured, (c, all, configured) ∈ views ->
    (item ∈ all ->
       item ∈ allProvidersMetadata providerMetadata t st
       /\ ProviderMetadata.category (metadata item) = c
       /\ ProviderMetadata.category (metadata item) <> embed
       /\ (exists descriptor,
             metadataOf providerMetadata (ProviderMetadata.id (metadata item))
             = Some descriptor
             /\ awaitIsAvailableBy descriptor = Normal true)
       /\ forall c' all' configured', (c', all', configured') ∈ views -> c' <> c ->
            item ∉ all')
    /\ (item ∈ configured <->
          item ∈ all
          /\ configuredProviders st !! ProviderMetadata.id (metadata item) = Some true).
Proof.
  intros views c all configured Hview.
  assert (Hshape : forall c0 all0 configured0, (c0, all0, configured0) ∈ views ->
            all0 = ofCategory c0 (availableProvidersMetadata providerMetadata t st)
            /\ configured0 = configuredOnly st all0 /\ c0 <> embed).
  { intros c0 all0 configured0 Hin. subst views.
    repeat (apply elem_of_cons in Hin as [Hin|Hin];
            [inversion Hin; subst; repeat split; discriminate|]).
    inversion Hin. }
  destruct (Hshape _ _ _ Hview) as (-> & -> & Hc).
  split.
  - intros Hin. apply ofCategory_members in Hin as [Hin Hcat].
    destruct (availableProvidersMetadata_members _ _ _ _ Hin) as [Hall Hok].
    split; [exact Hall|]. split; [exact Hcat|]. split; [congruence|]. split; [exact Hok|].
    intros c' all' configured' Hview' Hne.
    destruct (Hshape _ _ _ Hview') as (-> & _ & _).
    intros Hin'. apply ofCategory_members in Hin' as [_ Hcat']. congruence.
  - apply configuredOnly_members.
Qed.

Lemma category_views_witness :
  let item := mkLocalized (ollama isAbsoluteUrl_spec onlineListModels offlineFetch)
                "Ollama" "ollama.com" (Some true) in
  (item ∈ allChatProvidersMetadata onlineTable untranslated cachedStore ->
     item ∈ allProvidersMetadata onlineTable untranslated cachedStore
     /\ ProviderMetadata.category (metadata item) = chat
     /\ ProviderMetadata.category (metadata item) <> embed
     /\ (exists descriptor,
           metadataOf onlineTable (ProviderMetadata.id (metadata item)) = Some descriptor
           /\ awaitIsAvailableBy descriptor = Normal true)
     /\ forall c' all' configured',
          (c', all', configured')
          ∈ [ (chat, allChatProvidersMetadata onlineTable untranslated cachedStore,
               configuredChatProvidersMetadata onlineTable untranslated cachedStore);
              (speech, allAudioSpeechProvidersMetadata onlineTable untranslated cachedStore,
               configuredSpeechProvidersMetadata onlineTable untranslated cachedStore);
              (transcription,
               allAudioTranscriptionProvidersMetadata onlineTable untranslated cachedStore,
               configuredTranscriptionProvidersMetadata onlineTable untranslated cachedStore) ] ->
          c' <> chat -> item ∉ all')
  /\ (item ∈ configuredChatProvidersMetadata onlineTable untranslated cachedStore <->
        item ∈ allChatProvidersMetadata onlineTable untranslated cachedStore
        /\ configuredProviders cachedStore !! ProviderMetadata.id (metadata item) = Some true).
Proof.
  intros item.
  apply (category_views onlineTable untranslated cachedStore item chat).
  apply list_elem_of_here.
Defined.

Example configuredChatProvidersMetadata_cachedStore :
  map (fun item => ProviderMetadata.id (metadata item))
      (allChatProvidersMetadata onlineTable untranslated cachedStore)
  = ["openrouter-ai"; "ollama"; "xai"]
  /\ map (fun item => ProviderMetadata.id (metadata item))
       (configuredChatProvidersMetadata onlineTable untranslated cachedStore)
     = ["ollama"]
  /\ allAudioSpeechProvidersMetadata onlineTable untranslated cachedStore = [].
Proof. repeat split; vm_compute; reflexivity. Qed.

(** ** The validators of the descriptors *)

Lemma coherent_valid : coherentResult (ValidationResult.mk [] "" true).
Proof. repeat split. Qed.

Lemma coherent_invalid e errors c reason :
  coherentResult (ValidationResult.mk (e :: errors) (String c reason) false).
Proof. repeat split; discriminate. Qed.

Lemma coherent_notBaseUrlError : coherentResult notBaseUrlError.
Proof. apply coherent_invalid. Qed.

Lemma String_of_new_Error message :
  exists c rest, String_of_thrown (new_Error message) = String c rest.
Proof.
  unfold String_of_thrown, new_Error. simpl.
  destruct (String.eqb message ""); simpl; eauto.
Qed.

Lemma reasonOf_cons e errors :
  (exists c rest, String_of_thrown e = String c rest) ->
  exists c rest, reasonOf (e :: errors) = String c rest.
Proof.
  intros (c & rest & He). unfold reasonOf. simpl. rewrite He.
  destruct (map String_of_thrown errors); simpl; eauto.
Qed.

Lemma coherent_required (missingKey missingUrl : bool) keyMessage urlMessage :
  let errors := filter_Boolean [and_Error missingKey keyMessage;
                                and_Error missingUrl urlMessage] in
  coherentResult (ValidationResult.mk errors (reasonOf errors)
                    (negb missingKey && negb missingUrl)).
Proof.
  destruct missingKey, missingUrl; simpl;
    try apply coherent_valid;
    match goal with
    | |- coherentResult (ValidationResult.mk (?e :: ?l) _ _) =>
        destruct (reasonOf_cons e l (String_of_new_Error _)) as (c & rest & ->)
    end; apply coherent_invalid.
Qed.

(** X11.  The validators of the OpenRouter, xAI, Ollama, browser-local
    speech and Player2 speech descriptors return coherent results: a
    result is valid exactly when its list of errors is empty, and exactly
    when its reason is the empty string.  This holds for every config,
    every [isAbsoluteUrl] and every behaviour of the network. *)
Theorem validators_coherent
    (isAbsoluteUrl : JsValue -> bool)
    (vendorListModels : string -> Config -> Completion (list ModelInfo.t))
    (fetch : string -> JsValue -> Completion Response)
    (isWebGPUSupported : Completion bool) (deviceMemory : option Z)
    (config : Config) (descriptor : ProviderMetadata.t) (r : ValidationResult.t) :
  descriptor ∈ [ openrouter_ai isAbsoluteUrl vendorListModels;
                 xai vendorListModels;
                 ollama isAbsoluteUrl vendorListModels fetch;
                 browser_local_audio_speech vendorListModels isWebGPUSupported deviceMemory;
                 player2_speech isAbsoluteUrl ] ->
  ProviderMetadata.validateProviderConfig descriptor config = Normal r ->
  coherentResult r.
Proof.
  intros Hin Hrun.
  repeat (apply elem_of_cons in Hin as [->|Hin]); [..|inversion Hin];
    simpl in Hrun.
  - (* OpenRouter *)
    inversion Hrun; subst. unfold openrouter_validateProviderConfig.
    destruct (truthy (prop config "baseUrl") && negb (isAbsoluteUrl (prop config "baseUrl")));
      [apply coherent_notBaseUrlError|].
    pose proof (coherent_required (negb (truthy (prop config "apiKey")))
                  (negb (truthy (prop config "baseUrl")))
                  "API key is required" "Base URL is required") as H.
    now rewrite !negb_involutive in H.
  - (* xAI *)
    inversion Hrun; subst. unfold xai_validateProviderConfig.
    pose proof (coherent_required (negb (truthy (prop config "apiKey")))
                  (negb (truthy (prop config "baseUrl")))
                  "API key is required." "Base URL is required.") as H.
    now rewrite !negb_involutive in H.
  - (* Ollama *)
    unfold ollama_validateProviderConfig in Hrun.
    destruct (negb (truthy (prop config "baseUrl")));
      [inversion Hrun; apply coherent_invalid|].
    destruct (negb (isAbsoluteUrl (prop config "baseUrl")));
      [inversion Hrun; apply coherent_notBaseUrlError|].
    destruct (trim_value (prop config "baseUrl")) as [baseUrl|]; [|discriminate].
    simpl in Hrun.
    destruct (fetch _ _) as [response|err]; inversion Hrun; subst.
    + destruct (ok response); [apply coherent_valid | apply coherent_invalid].
    + apply coherent_invalid.
  - (* browser-local speech *)
    destruct (negb (truthy (prop config "baseUrl"))); inversion Hrun;
      [apply coherent_invalid | apply coherent_valid].
  - (* Player2 speech *)
    destruct (negb (truthy (prop config "baseUrl")));
      [inversion Hrun; apply coherent_invalid|].
    destruct (negb (isAbsoluteUrl (prop config "baseUrl"))); inversion Hrun;
      [apply coherent_notBaseUrlError | apply coherent_valid].
Qed.

Lemma validators_coherent_witness :
  coherentResult
    (ValidationResult.mk
       [new_Error "Ollama server returned non-ok status code: Internal Server Error"]
       "Error: Ollama server returned non-ok status code: Internal Server Error"
       false).
Proof.
  apply (validators_coherent isAbsoluteUrl_spec offlineListModels fetch500
           (Normal true) None
           {[ "baseUrl" := VStr "http://localhost:11434/v1/" ]}
           (ollama isAbsoluteUrl_spec offlineListModels fetch500)).
  - do 2 apply list_elem_of_further. apply list_elem_of_here.
  - reflexivity.
Defined.

(** X12.  Ollama end to end.  With a stored base URL that is a non-empty
    string and an absolute URL, validation probes the trimmed base URL
    followed by ["models"] with the stored headers.  A response with an
    ok status makes the provider configured; any other response makes
    [validateProvider] reject with a reason that ends in the status text,
    and a failed request makes it reject with the error and the CORS
    hint; in both cases the provider is recorded as not configured. *)
Theorem ollama_reachability
    (providerMetadata : list (string * ProviderMetadata.t))
    (isAbsoluteUrl : JsValue -> bool)
    (vendorListModels : string -> Config -> Completion (list ModelInfo.t))
    (fetch : string -> JsValue -> Completion Response)
    (st : Store) (config : Config) (baseUrl : string)
    (Hmeta : metadataOf providerMetadata "ollama"
             = Some (ollama isAbsoluteUrl vendorListModels fetch))
    (Hconfig : providerCredentials st !! "ollama" = Some config)
    (Hurl : prop config "baseUrl" = VStr baseUrl)
    (Hnonempty : baseUrl <> "")
    (Habsolute : isAbsoluteUrl (VStr baseUrl) = true) :
  match fetch (trim baseUrl ++ "models") (js_or (prop config "headers") VUndefined) with
  | Normal response =>
      configuredProviders (updateStatusOf providerMetadata "ollama" st) !! "ollama"
      = Some (ok response)
      /\ validateProvider providerMetadata "ollama" st
         = if ok response then Normal true
           else Abrupt (new_Error ("Error: Ollama server returned non-ok status code: "
                                   ++ statusText response))
  | Abrupt err =>
      configuredProviders (updateStatusOf providerMetadata "ollama" st) !! "ollama"
      = Some false
      /\ validateProvider providerMetadata "ollama" st
         = Abrupt (new_Error ("Failed to reach Ollama server, error: "
                              ++ String_of_thrown err ++ ollamaCorsHint))
  end.
Proof.
  rewrite updateStatusOf_configured.
  rewrite (validateProvider_present _ _ _ _ _ Hconfig Hmeta).
  simpl. unfold ollama_validateProviderConfig. rewrite Hurl, Habsolute. simpl.
  apply String.eqb_neq in Hnonempty. rewrite Hnonempty. simpl.
  destruct (fetch _ _) as [response|err]; simpl.
  - destruct (ok response); simpl; split; reflexivity.
  - split; reflexivity.
Qed.

(** The created store over a server that answers 500. *)
Lemma ollama_reachability_witness :
  configuredProviders (updateStatusOf failingTable "ollama" seededStore) !! "ollama"
  = Some false
  /\ validateProvider failingTable "ollama" seededStore
     = Abrupt (new_Error
                 "Error: Ollama server returned non-ok status code: Internal Server Error").
Proof.
  exact (ollama_reachability failingTable isAbsoluteUrl_spec offlineListModels fetch500
           seededStore {[ "baseUrl" := VStr "http://localhost:11434/v1/" ]}
           "http://localhost:11434/v1/" eq_refl eq_refl eq_refl
           ltac:(discriminate) eq_refl).
Defined.

(** ** The fields of a settings page *)

Lemma js_or_empty_idem v : js_or (js_or v (VStr "")) (VStr "") = js_or v (VStr "").
Proof. unfold js_or. destruct (truthy v) eqn:H; [now rewrite H | reflexivity]. Qed.

Lemma prop_insert (config : Config) key key' v :
  prop (<[key := v]> config) key' = if decide (key = key') then v else prop config key'.
Proof. unfold prop. rewrite lookup_insert. now case_decide. Qed.

(** X13.  The computed fields of a page.  Reading a field after setting it
    gives the value set, or the empty string when that value is falsy;
    setting a field changes no other field of the provider, no other
    provider's config, and nothing of the validation state. *)
Theorem field_setField (providerId key : string) (value : JsValue) (p : Page) :
  let p' := setField providerId key value p in
  field providerId key p' = js_or value (VStr "")
  /\ (forall key', key' <> key -> field providerId key' p' = field providerId key' p)
  /\ (forall other, other <> providerId ->
        providerCredentials (store p') !! other = providerCredentials (store p) !! other)
  /\ isValidating p' = isValidating p /\ isValid p' = isValid p
  /\ validationMessage p' = validationMessage p
  /\ awaited p' = awaited p /\ timers p' = timers p
  /\ configuredProviders (store p') = configuredProviders (store p).
Proof.
  intros p'. subst p'. unfold field, setField. simpl.
  rewrite lookup_insert_eq, prop_insert, decide_True by reflexivity.
  split; [reflexivity|]. split; [|split; [|repeat split]].
  - intros key' Hne. rewrite prop_insert, decide_False by congruence.
    destruct (providerCredentials (store p) !! providerId); reflexivity.
  - intros other Hne. now rewrite lookup_insert_ne by congruence.
Qed.

Lemma page_eq_store (p q : Page) :
  store p = store q -> isValidating p = isValidating q -> isValid p = isValid q ->
  validationMessage p = validationMessage q -> awaited p = awaited q ->
  timers p = timers q -> p = q.
Proof. destruct p, q; simpl; intros; subst; reflexivity. Qed.

Lemma store_eq_credentials (s s' : Store) :
  providerCredentials s = providerCredentials s' ->
  configuredProviders s = configuredProviders s' ->
  availableModels s = availableModels s' ->
  isLoadingModels s = isLoadingModels s' ->
  modelLoadError s = modelLoadError s' -> s = s'.
Proof. destruct s, s'; simpl; intros; subst; reflexivity. Qed.

(** X14.  The callback of [watch([apiKey, baseUrl], ..)] writes the two
    fields back into the provider's config: afterwards the config has
    both keys, with the values the fields had, every other key of the
    config is kept, the fields read the same, and running the callback
    again changes nothing. *)
Theorem watchSettings_normalizes (providerId : string) (p : Page) :
  let p' := watchSettings providerId p in
  watchSettings providerId p' = p'
  /\ field providerId "apiKey" p' = field providerId "apiKey" p
  /\ field providerId "baseUrl" p' = field providerId "baseUrl" p
  /\ exists config',
       providerCredentials (store p') !! providerId = Some config'
       /\ config' !! "apiKey" = Some (field providerId "apiKey" p)
       /\ config' !! "baseUrl" = Some (field providerId "baseUrl" p)
       /\ forall key, key <> "apiKey" -> key <> "baseUrl" ->
            config' !! key
            = default ∅ (providerCredentials (store p) !! providerId) !! key.
Proof.
  intros p'.
  assert (Hkey : field providerId "apiKey" p' = field providerId "apiKey" p).
  { subst p'. unfold watchSettings, field at 1. simpl.
    rewrite lookup_insert_eq. rewrite !prop_insert. simpl.
    apply js_or_empty_idem. }
  assert (Hurl : field providerId "baseUrl" p' = field providerId "baseUrl" p).
  { subst p'. unfold watchSettings, field at 1. simpl.
    rewrite lookup_insert_eq. rewrite !prop_insert. simpl.
    rewrite js_or_empty_idem. apply js_or_empty_idem. }
  split; [|split; [exact Hkey|split; [exact Hurl|]]].
  - unfold watchSettings at 1. rewrite Hkey, Hurl.
    subst p'. unfold watchSettings.
    apply page_eq_store; try reflexivity. simpl.
    apply store_eq_credentials; try reflexivity. simpl.
    rewrite lookup_insert_eq. simpl. rewrite insert_insert_eq. f_equal.
    apply map_eq. intros key. rewrite !lookup_insert.
    repeat case_decide; reflexivity.
  - subst p'. unfold watchSettings. simpl. rewrite lookup_insert_eq.
    eexists. split; [reflexivity|]. split; [|split].
    + rewrite lookup_insert_ne by discriminate. apply lookup_insert_eq.
    + rewrite lookup_insert_eq. f_equal. apply js_or_empty_idem.
    + intros key Hk Hu. now rewrite !lookup_insert_ne by congruence.
Qed.

Lemma trim_empty : trim "" = "".
Proof. reflexivity. Qed.

Lemma debouncedValidateConfiguration_starts_general
    (providerMetadata : list (string * ProviderMetadata.t))
    (t : string -> string -> string) (tValidationError : string -> string)
    (providerId : string) (p : Page) (apiKey baseUrl : string)
    (descriptor : ProviderMetadata.t)
    (Hmeta : metadataOf providerMetadata providerId = Some descriptor)
    (Hkey : field providerId "apiKey" p = VStr apiKey)
    (Hurl : field providerId "baseUrl" p = VStr baseUrl) :
  let p' := debouncedValidateConfiguration providerMetadata t tValidationError providerId p in
  if String.eqb (trim apiKey) ""
  then p' = clearValidation p
       /\ awaited p' = awaited p /\ timers p' = timers p /\ isValidating p' = 0
  else awaited p'
       = (awaited p
          ++ [ProviderMetadata.validateProviderConfig descriptor
                {[ "apiKey" := VStr (trim apiKey); "baseUrl" := VStr (trim baseUrl) ]}])%list
       /\ timers p' = timers p
       /\ isValidating p' = isValidating p + 1
       /\ validationMessage p' = ""
       /\ isValid p' = isValid p
       /\ store p' = store p.
Proof.
  intros p'. subst p'. unfold debouncedValidateConfiguration. rewrite Hkey. simpl.
  destruct (String.eqb (trim apiKey) ""); [repeat split|].
  unfold validateConfiguration, pageMetadata, getProviderMetadata. rewrite Hmeta.
  assert (Hkey' : forall q, store q = store p -> field providerId "apiKey" q = VStr apiKey)
    by (intros q Hq; unfold field in *; now rewrite Hq).
  assert (Hurl' : forall q, store q = store p -> field providerId "baseUrl" q = VStr baseUrl)
    by (intros q Hq; unfold field in *; now rewrite Hq).
  rewrite Hkey', Hurl' by reflexivity. simpl. repeat split.
Qed.

(** X15.  The debounced validation of a page.  With a key that is empty
    after trimming (white space only, or nothing) it starts no validation
    and clears the validation state.  Otherwise, for a provider of the
    table, it starts exactly one call of the provider's hook, on a config
    made of the trimmed key and the trimmed base URL, counts it in
    [isValidating], blanks the message and leaves the store as it is. *)
Theorem debouncedValidateConfiguration_starts
    (providerMetadata : list (string * ProviderMetadata.t))
    (t : string -> string -> string) (tValidationError : string -> string)
    (providerId : string) (p : Page) (apiKey baseUrl : string)
    (descriptor : ProviderMetadata.t)
    (Hmeta : metadataOf providerMetadata providerId = Some descriptor)
    (Hkey : field providerId "apiKey" p = VStr apiKey)
    (Hurl : field providerId "baseUrl" p = VStr baseUrl) :
  let p' := debouncedValidateConfiguration providerMetadata t tValidationError providerId p in
  if String.eqb (trim apiKey) ""
  then p' = clearValidation p
       /\ awaited p' = awaited p /\ timers p' = timers p /\ isValidating p' = 0
  else awaited p'
       = (awaited p
          ++ [ProviderMetadata.validateProviderConfig descriptor
                {[ "apiKey" := VStr (trim apiKey); "baseUrl" := VStr (trim baseUrl) ]}])%list
       /\ timers p' = timers p
       /\ isValidating p' = isValidating p + 1
       /\ validationMessage p' = ""
       /\ isValid p' = isValid p
       /\ store p' = store p.
Proof.
  exact (debouncedValidateConfiguration_starts_general providerMetadata t tValidationError
           providerId p apiKey baseUrl descriptor Hmeta Hkey Hurl).
Qed.

(** The xAI page with a key and a base URL typed in. *)
Lemma debouncedValidateConfiguration_starts_witness :
  let p' := debouncedValidateConfiguration offlineTable untranslated
              (fun error => "Validation error: " ++ error) "xai" (newPage xaiStore) in
  awaited p'
  = [ProviderMetadata.validateProviderConfig (xai offlineListModels)
       {[ "apiKey" := VStr "xai-123"; "baseUrl" := VStr "https://api.x.ai/v1/" ]}]
  /\ timers p' = []
  /\ isValidating p' = 1
  /\ validationMessage p' = ""
  /\ isValid p' = false
  /\ store p' = xaiStore.
Proof.
  exact (debouncedValidateConfiguration_starts offlineTable untranslated
           (fun error => "Validation error: " ++ error) "xai" (newPage xaiStore)
           "xai-123" "https://api.x.ai/v1/" (xai offlineListModels)
           eq_refl eq_refl eq_refl).
Defined.

(** X16.  The page and the store can disagree about xAI.  With a key and
    a base URL that is not empty but consists of white space, the store's
    [validateProvider] resolves to [true] (it validates the stored
    config), while the validation the page starts resolves to an invalid
    result asking for the base URL (it validates the trimmed fields). *)
Theorem xai_page_and_store_disagree
    (providerMetadata : list (string * ProviderMetadata.t))
    (vendorListModels : string -> Config -> Completion (list ModelInfo.t))
    (t : string -> string -> string) (tValidationError : string -> string)
    (p : Page) (config : Config) (apiKey baseUrl : string)
    (Hmeta : metadataOf providerMetadata "xai" = Some (xai vendorListModels))
    (Hconfig : providerCredentials (store p) !! "xai" = Some config)
    (Hkey : prop config "apiKey" = VStr apiKey)
    (Hurl : prop config "baseUrl" = VStr baseUrl)
    (Hkey_given : trim apiKey <> "")
    (Hurl_given : baseUrl <> "")
    (Hurl_blank : trim baseUrl = "") :
  validateProvider providerMetadata "xai" (store p) = Normal true
  /\ awaited (debouncedValidateConfiguration providerMetadata t tValidationError "xai" p)
     = (awaited p
        ++ [Normal (ValidationResult.mk [new_Error "Base URL is required."]
                      "Error: Base URL is required." false)])%list.
Proof.
  assert (Hkey_nonempty : apiKey <> "") by (intros ->; now apply Hkey_given).
  apply String.eqb_neq in Hkey_nonempty, Hurl_given, Hkey_given.
  split.
  - rewrite (validateProvider_present _ _ _ _ _ Hconfig Hmeta). simpl.
    unfold xai_validateProviderConfig. rewrite Hkey, Hurl. simpl.
    now rewrite Hkey_nonempty, Hurl_given.
  - pose proof (debouncedValidateConfiguration_starts_general providerMetadata t
                  tValidationError "xai" p apiKey baseUrl (xai vendorListModels) Hmeta) as H.
    assert (Hf1 : field "xai" "apiKey" p = VStr apiKey).
    { unfold field. rewrite Hconfig, Hkey. unfold js_or. simpl. now rewrite Hkey_nonempty. }
    assert (Hf2 : field "xai" "baseUrl" p = VStr baseUrl).
    { unfold field. rewrite Hconfig, Hurl. unfold js_or. simpl. now rewrite Hurl_given. }
    specialize (H Hf1 Hf2). simpl in H. rewrite Hkey_given in H.
    destruct H as [-> _]. rewrite Hurl_blank. do 2 f_equal. simpl.
    unfold xai_validateProviderConfig. unfold prop.
    rewrite lookup_insert_eq, lookup_insert_ne, lookup_singleton_eq by discriminate.
    simpl. apply String.eqb_neq in Hkey_given.
    destruct (trim apiKey) eqn:Ht; [contradiction|]. reflexivity.
Qed.

Lemma xai_page_and_store_disagree_witness :
  validateProvider offlineTable "xai" blankUrlStore = Normal true
  /\ awaited (debouncedValidateConfiguration offlineTable untranslated
                (fun error => "Validation error: " ++ error) "xai" (newPage blankUrlStore))
     = [Normal (ValidationResult.mk [new_Error "Base URL is required."]
                  "Error: Base URL is required." false)].
Proof.
  exact (xai_page_and_store_disagree offlineTable offlineListModels untranslated
           (fun error => "Validation error: " ++ error) (newPage blankUrlStore)
           {[ "apiKey" := VStr "xai-123"; "baseUrl" := VStr "  " ]}
           "xai-123" "  " eq_refl eq_refl eq_refl eq_refl
           ltac:(discriminate) ltac:(discriminate) eq_refl).
Defined.

(** ** The header editor of the Ollama page *)

Lemma delete_past_end {A} (l : list A) i : (length l <= i)%nat -> delete i l = l.
Proof.
  revert i. induction l as [|x l IH]; intros [|i] Hle; simpl in *; try reflexivity; [lia|].
  f_equal. apply IH. lia.
Qed.

Lemma length_delete_le {A} (l : list A) i :
  (length (delete i l) <= length l)%nat /\ (length l <= S (length (delete i l)))%nat.
Proof.
  destruct (decide (i < length l)%nat) as [Hlt|Hge].
  - rewrite length_delete by (now apply lookup_lt_is_Some). lia.
  - rewrite delete_past_end by lia. lia.
Qed.

(** X17.  [removeKeyValue] never empties the editor: a non-empty list of
    rows stays non-empty and loses at most one row.  The only row is
    blanked instead of removed; with two rows or more, an index inside
    the list removes the row at that index, and an index at or past the
    end removes nothing. *)
Theorem removeKeyValue_keeps_a_row (index : Z) (rows : list HeaderRow.t) :
  (rows <> [] -> removeKeyValue index rows <> [])
  /\ (length (removeKeyValue index rows) <= length rows)%nat
  /\ (length rows <= S (length (removeKeyValue index rows)))%nat
  /\ (length rows = 1%nat -> removeKeyValue index rows = [emptyRow])
  /\ ((2 <= length rows)%nat -> 0 <= index < Z.of_nat (length rows) ->
      removeKeyValue index rows = delete (Z.to_nat index) rows
      /\ length (removeKeyValue index rows) = (length rows - 1)%nat)
  /\ ((2 <= length rows)%nat -> Z.of_nat (length rows) <= index ->
      removeKeyValue index rows = rows).
Proof.
  destruct rows as [|r1 [|r2 rest]].
  - simpl. repeat split; try (intros; simpl in *; lia); try congruence.
  - simpl. repeat split; try (intros; simpl in *; lia); try congruence.
  - assert (Hsplice : removeKeyValue index (r1 :: r2 :: rest)
                      = splice1 index (r1 :: r2 :: rest)) by reflexivity.
    rewrite Hsplice. unfold splice1.
    set (l := r1 :: r2 :: rest) in *.
    assert (Hlen : (2 <= length l)%nat) by (subst l; simpl; lia).
    destruct (length_delete_le l
                (Z.to_nat (if index <? 0 then Z.max (Z.of_nat (length l) + index) 0
                           else Z.min index (Z.of_nat (length l))))) as [Hle Hge].
    split; [|split; [exact Hle|split; [exact Hge|split; [lia|split]]]].
    + intros _ Hnil. rewrite Hnil in Hge. simpl in Hge. lia.
    + intros _ [Hlo Hhi].
      assert (Hcase : (index <? 0) = false) by (apply Z.ltb_ge; lia).
      rewrite Hcase, Z.min_l by lia.
      split; [reflexivity|]. apply length_delete. apply lookup_lt_is_Some. lia.
    + intros _ Hpast.
      assert (Hcase : (index <? 0) = false) by (apply Z.ltb_ge; lia).
      rewrite Hcase, Z.min_r by lia. apply delete_past_end. lia.
Qed.

Example removeKeyValue_examples :
  removeKeyValue 1 sampleRows = [HeaderRow.mk "Authorization" (VStr "Bearer a"); emptyRow]
  /\ removeKeyValue (-1) sampleRows
     = [HeaderRow.mk "Authorization" (VStr "Bearer a"); HeaderRow.mk "X-Trace" (VStr "1")]
  /\ removeKeyValue 7 sampleRows = sampleRows
  /\ removeKeyValue 0 [HeaderRow.mk "X-Trace" (VStr "1")] = [emptyRow].
Proof. repeat split. Qed.

Section HeadersObject.


Lemma lookupProp_None props k : lookupProp props k = None <-> k ∉ map fst props.
Proof.
  induction props as [|[k0 v0] rest IH]; simpl.
  - split; [intros _ H; inversion H | reflexivity].
  - rewrite not_elem_of_cons. destruct (String.eqb_spec k0 k) as [->|Hne].
    + split; [discriminate | intros [? _]; congruence].
    + rewrite IH. intuition congruence.
Qed.












End HeadersObject.


Example headersObject_overrides :
  headersObject [HeaderRow.mk "A" (VStr "1"); HeaderRow.mk "" (VStr "x");
                 HeaderRow.mk "B" (VStr "2"); HeaderRow.mk "A" (VStr "3"); emptyRow]
  = VObj [("A", VStr "3"); ("B", VStr "2")].
Proof. reflexivity. Qed.

(** A row keyed ["__proto__"] leaves no property, and array indices come
    first in ascending order, whatever the order of the rows; ["01"] and
    ["4294967295"] are not array indices. *)
Example headersObject_proto_and_order :
  headersObject [HeaderRow.mk "b" (VStr "1"); HeaderRow.mk "__proto__" (VStr "x");
                 HeaderRow.mk "10" (VStr "2"); HeaderRow.mk "01" (VStr "3");
                 HeaderRow.mk "2" (VStr "4"); HeaderRow.mk "4294967295" (VStr "5");
                 HeaderRow.mk "a" (VStr "6"); HeaderRow.mk "0" (VStr "7");
                 HeaderRow.mk "b" (VStr "8")]
  = VObj [("0", VStr "7"); ("2", VStr "4"); ("10", VStr "2"); ("b", VStr "8");
          ("01", VStr "3"); ("4294967295", VStr "5"); ("a", VStr "6")].
Proof. vm_compute. reflexivity. Qed.





(** ** The validating counter of the Ollama page *)

Section OllamaCounter.

Variable providerMetadata : list (string * ProviderMetadata.t).
Variable t : string -> string -> string.
Variable tValidationError : string -> string.
Variable providerId : string.

Lemma counted_ollamaValidateConfiguration o :
  counted (page o) ->
  counted (page (ollamaValidateConfiguration providerMetadata t tValidationError
                   providerId o)).
Proof.
  intros H. unfold ollamaValidateConfiguration.
  destruct (pageMetadata providerMetadata t providerId) as [localized|]; [|exact H].
  simpl.
  match goal with |- context [bindC ?c ?k] => destruct (bindC c k) as [config|error] end.
  - unfold counted, inFlight in *. simpl. rewrite length_app. simpl. lia.
  - apply counted_settled. unfold counted, inFlight in *. simpl. lia.
Qed.

Lemma counted_ollamaStep ev o :
  ollamaClears providerMetadata t providerId ev o = false ->
  counted (page o) ->
  counted (page (ollamaStep providerMetadata t tValidationError providerId ev o)).
Proof.
  intros Hquiet H. destruct ev; simpl in *; try exact H; try discriminate.
  - (* OMounted *)
    unfold ollamaOnMounted.
    destruct (initializeProvider providerMetadata providerId (store (page o))); [|exact H].
    destruct (ollamaBaseUrl _ _ _ _) as [baseUrl|]; [|exact H].
    match goal with
    | |- context [bindC ?c ?k] => destruct (bindC c k) as [trimmed|]
    end.
    + destruct (String.eqb trimmed "").
      * simpl. destruct (truthy _); exact H.
      * apply counted_ollamaValidateConfiguration. simpl. destruct (truthy _); exact H.
    + simpl. destruct (truthy _); exact H.
  - (* OHeadersWatchFired *)
    unfold watchHeaders.
    destruct (providerCredentials (store (page o)) !! providerId); exact H.
  - (* ODebounceFired *)
    unfold ollamaDebouncedValidateConfiguration.
    destruct (bindC _ _) as [baseUrl|]; [|exact H].
    rewrite Hquiet. apply counted_ollamaValidateConfiguration; exact H.
  - (* OHookSettled *)
    destruct (awaited (page o) !! i) as [outcome|] eqn:Hi; [|exact H].
    simpl. apply counted_settled. unfold counted, inFlight in *. simpl.
    rewrite length_delete by eauto.
    apply lookup_lt_Some in Hi. lia.
  - (* OTimerFired *)
    destruct (timers (page o) !! i) as [message|] eqn:Hi; [|exact H].
    unfold counted, inFlight in *. simpl.
    rewrite length_delete by eauto.
    apply lookup_lt_Some in Hi. lia.
Qed.

Lemma counted_ollamaRun events : forall o,
  ollamaNeverCleared providerMetadata t tValidationError providerId events o = true ->
  counted (page o) ->
  counted (page (ollamaRun providerMetadata t tValidationError providerId events o)).
Proof.
  induction events as [|ev rest IH]; intros o Hquiet H; simpl in *.
  - exact H.
  - apply andb_prop in Hquiet as [Hev Hrest].
    apply IH; [exact Hrest|].
    apply counted_ollamaStep; [now apply negb_true_iff | exact H].
Qed.

End OllamaCounter.

(** X20.  The counter of the Ollama page.  Along a run of the page in
    which neither the reset handler nor the empty-URL branch of the
    debounced function executes, [isValidating] equals the number of
    validation calls whose completion handler has not run; the header
    editor and its watcher never touch it. *)
Theorem ollama_isValidating_counts_in_flight
    (providerMetadata : list (string * ProviderMetadata.t))
    (t : string -> string -> string) (tValidationError : string -> string)
    (providerId : string) (events : list OllamaEvent) (o : OllamaPage)
    (Hquiet : ollamaNeverCleared providerMetadata t tValidationError providerId events o
              = true)
    (Hstart : isValidating (page o) = Z.of_nat (inFlight (page o))) :
  let o' := ollamaRun providerMetadata t tValidationError providerId events o in
  isValidating (page o') = Z.of_nat (inFlight (page o'))
  /\ (isValidating (page o') = 0 <-> inFlight (page o') = 0%nat)
  /\ forall ev,
       match ev with
       | OSetHeaders _ | OAddKeyValue _ _ | ORemoveKeyValue _ | OHeadersWatchFired
       | OSetBaseUrl _ => True
       | _ => False
       end ->
       isValidating (page (ollamaStep providerMetadata t tValidationError providerId ev o'))
       = isValidating (page o')
       /\ inFlight (page (ollamaStep providerMetadata t tValidationError providerId ev o'))
          = inFlight (page o').
Proof.
  intros o'.
  assert (Hcount : isValidating (page o') = Z.of_nat (inFlight (page o')))
    by (apply counted_ollamaRun; assumption).
  split; [exact Hcount|]. split; [rewrite Hcount; lia|].
  intros ev Hev. destruct ev; try contradiction; simpl; try (split; reflexivity).
  unfold watchHeaders.
  destruct (providerCredentials (store (page o')) !! providerId); split; reflexivity.
Qed.

Lemma ollama_isValidating_counts_in_flight_witness :
  let o' := ollamaRunExample ollamaEvents in
  isValidating (page o') = Z.of_nat (inFlight (page o'))
  /\ (isValidating (page o') = 0 <-> inFlight (page o') = 0%nat)
  /\ forall ev,
       match ev with
       | OSetHeaders _ | OAddKeyValue _ _ | ORemoveKeyValue _ | OHeadersWatchFired
       | OSetBaseUrl _ => True
       | _ => False
       end ->
       isValidating (page (ollamaStep failingTable untranslated
                             (fun error => "Validation error: " ++ error) "ollama" ev o'))
       = isValidating (page o')
       /\ inFlight (page (ollamaStep failingTable untranslated
                            (fun error => "Validation error: " ++ error) "ollama" ev o'))
          = inFlight (page o').
Proof.
  apply (ollama_isValidating_counts_in_flight failingTable untranslated
           (fun error => "Validation error: " ++ error) "ollama" ollamaEvents
           (newOllamaPage seededStore)).
  - vm_compute. reflexivity.
  - reflexivity.
Defined.

Example ollamaRunExample_trace :
  map (fun n => let o := ollamaRunExample (take n ollamaEvents) in
                (isValidating (page o), inFlight (page o), length (headers o)))
      [0; 1; 2; 4; 5; 7; 9]%nat
  = [ (0, 0%nat, 0%nat); (0, 0%nat, 0%nat); (1, 1%nat, 1%nat); (1, 1%nat, 2%nat);
      (2, 2%nat, 2%nat); (1, 1%nat, 2%nat); (0, 0%nat, 2%nat) ].
Proof. vm_compute. reflexivity. Qed.

Example ollamaRunExample_final :
  let o := ollamaRunExample ollamaEvents in
  providerCredentials (store (page o)) !! "ollama"
  = Some {[ "baseUrl" := VStr "http://localhost:11434/v1/";
            "headers" := VObj [("Authorization", VStr "Bearer a")] ]}
  /\ validationMessage (page o)
     = "Error: Ollama server returned non-ok status code: Internal Server Error"
  /\ isValid (page o) = false.
Proof. vm_compute. repeat split. Qed.

(** ** The Ollama page after a reset *)

Section OllamaReset.

Variable providerMetadata : list (string * ProviderMetadata.t).
Variable isAbsoluteUrl : JsValue -> bool.
Variable vendorListModels : string -> Config -> Completion (list ModelInfo.t).
Variable fetch : string -> JsValue -> Completion Response.
Variable t : string -> string -> string.
Variable tValidationError : string -> string.

Hypothesis Hmeta :
  metadataOf providerMetadata "ollama" = Some (ollama isAbsoluteUrl vendorListModels fetch).

Lemma reset_store p :
  providerCredentials (store (handleResetSettings providerMetadata t "ollama" p)) !! "ollama"
  = Some ∅.
Proof. apply (handleResetSettings_stored _ _ tValidationError). rewrite Hmeta. eauto. Qed.

Lemma ollamaBaseUrl_default p :
  providerCredentials (store p) !! "ollama" = Some ∅ ->
  ollamaBaseUrl providerMetadata t "ollama" p = Normal (VStr "http://localhost:11434/v1/").
Proof.
  intros Hempty. unfold ollamaBaseUrl, pageMetadata, getProviderMetadata.
  rewrite Hempty, Hmeta. reflexivity.
Qed.


Lemma ollama_remount p rows :
  let p' := handleResetSettings providerMetadata t "ollama" p in
  let o := ollamaOnMounted providerMetadata t tValidationError "ollama"
             (mkOllamaPage p' rows) in
  getProviderConfig "ollama" (store (page o))
  = Some {[ "baseUrl" := VStr "http://localhost:11434/v1/"; "headers" := VObj [] ]}
  /\ headers o = match rows with [] => [emptyRow] | _ => rows end
  /\ isValidating (page o) = 1.
Proof.
  intros p' o. pose proof (reset_store p) as Hstore. fold p' in Hstore.
  pose proof (ollamaBaseUrl_default p' Hstore) as Hget.
  assert (Hzero : isValidating p' = 0).
  { subst p'. unfold handleResetSettings, pageMetadata, getProviderMetadata.
    rewrite Hmeta. reflexivity. }
  subst o. clearbody p'.
  unfold ollamaOnMounted, initializeProvider. cbv zeta. cbn [page headers]. rewrite Hstore.
  assert (Hsame : set_store (fun _ => store p') p' = p') by now destruct p'.
  rewrite Hsame, Hget.
  remember (setField "ollama" "baseUrl" (VStr "http://localhost:11434/v1/") p') as p2 eqn:E2.
  assert (Hp2 : providerCredentials (store p2) !! "ollama"
                = Some {[ "baseUrl" := VStr "http://localhost:11434/v1/" ]}
                /\ isValidating p2 = 0).
  { subst p2. unfold setField. simpl. rewrite lookup_insert_eq, Hstore. now split. }
  clear E2. destruct Hp2 as [Hp2 Hzero2]. rewrite Hp2.
  change (truthy (prop {[ "baseUrl" := VStr "http://localhost:11434/v1/" ]} "headers"))
    with false. cbv iota.
  remember (setField "ollama" "headers" (VObj []) p2) as p3 eqn:E3.
  assert (Hp3 : providerCredentials (store p3) !! "ollama"
                = Some {[ "baseUrl" := VStr "http://localhost:11434/v1/";
                          "headers" := VObj [] ]}
                /\ isValidating p3 = 0).
  { subst p3. unfold setField. simpl. rewrite lookup_insert_eq, Hp2. simpl.
    split; [|exact Hzero2].
    f_equal; apply map_eq; intros key; rewrite !lookup_insert;
      repeat case_decide; congruence. }
  clear E3. destruct Hp3 as [Hp3 Hzero3].
  assert (Hget3 : forall q, providerCredentials (store q) = providerCredentials (store p3) ->
                    ollamaBaseUrl providerMetadata t "ollama" q
                    = Normal (VStr "http://localhost:11434/v1/")).
  { intros q Hq. unfold ollamaBaseUrl. rewrite Hq, Hp3. reflexivity. }
  rewrite (Hget3 p3 eq_refl).
  change (bindC (Normal (VStr "http://localhost:11434/v1/")) (fun value => trim_value value))
    with (Normal (A := string) "http://localhost:11434/v1/").
  change (String.eqb "http://localhost:11434/v1/" "") with false. cbv iota.
  unfold ollamaValidateConfiguration, pageMetadata, getProviderMetadata. rewrite Hmeta.
  cbv zeta. cbn [page headers].
  rewrite (Hget3 (set_validationMessage "" (set_isValidating (fun n => n + 1) p3)) eq_refl).
  cbn [bindC trim_value page headers].
  split; [exact Hp3|]. split; [now destruct rows|].
  cbn. rewrite Hzero3. reflexivity.
Qed.

End OllamaReset.



(** X22.  Mounting the Ollama page again after a reset repairs the stored
    config: [onMounted] writes the default URL the field reads back into
    the store and adds an empty header object, so the stored config is
    [{baseUrl: 'http://localhost:11434/v1/', headers: {}}]; it makes sure
    the editor has a row, and it starts one validation. *)
Theorem ollama_remount_restores_default
    (providerMetadata : list (string * ProviderMetadata.t))
    (isAbsoluteUrl : JsValue -> bool)
    (vendorListModels : string -> Config -> Completion (list ModelInfo.t))
    (fetch : string -> JsValue -> Completion Response)
    (t : string -> string -> string) (tValidationError : string -> string)
    (p : Page) (rows : list HeaderRow.t)
    (Hmeta : metadataOf providerMetadata "ollama"
             = Some (ollama isAbsoluteUrl vendorListModels fetch)) :
  let p' := handleResetSettings providerMetadata t "ollama" p in
  let o := ollamaOnMounted providerMetadata t tValidationError "ollama"
             (mkOllamaPage p' rows) in
  getProviderConfig "ollama" (store (page o))
  = Some {[ "baseUrl" := VStr "http://localhost:11434/v1/"; "headers" := VObj [] ]}
  /\ headers o = match rows with [] => [emptyRow] | _ => rows end
  /\ isValidating (page o) = 1.
Proof.
  exact (ollama_remount providerMetadata isAbsoluteUrl vendorListModels fetch t
           tValidationError Hmeta p rows).
Qed.

Lemma ollama_remount_restores_default_witness :
  let p' := handleResetSettings failingTable untranslated "ollama" (newPage ollamaStore) in
  let o := ollamaOnMounted failingTable untranslated
             (fun error => "Validation error: " ++ error) "ollama"
             (mkOllamaPage p' []) in
  getProviderConfig "ollama" (store (page o))
  = Some {[ "baseUrl" := VStr "http://localhost:11434/v1/"; "headers" := VObj [] ]}
  /\ headers o = [emptyRow]
  /\ isValidating (page o) = 1.
Proof.
  exact (ollama_remount_restores_default failingTable isAbsoluteUrl_spec offlineListModels
           fetch500 untranslated (fun error => "Validation error: " ++ error)
           (newPage ollamaStore) [] eq_refl).
Defined.

(** X23.  Mounting a page of the xAI kind after a reset does not restore
    anything: for a provider of the table, the stored config after reset
    and mount consists of an empty [apiKey] and an empty [baseUrl],
    whatever the descriptor's defaults are, no validation is started and
    the validation state is the cleared one. *)
Theorem remount_after_reset_is_blank
    (providerMetadata : list (string * ProviderMetadata.t))
    (t : string -> string -> string) (tValidationError : string -> string)
    (providerId : string) (p : Page)
    (Hmeta : is_Some (metadataOf providerMetadata providerId)) :
  let p' := onMounted providerMetadata t tValidationError providerId
              (handleResetSettings providerMetadata t providerId p) in
  getProviderConfig providerId (store p')
  = Some {[ "apiKey" := VStr ""; "baseUrl" := VStr "" ]}
  /\ awaited p' = awaited p /\ timers p' = timers p
  /\ isValidating p' = 0 /\ isValid p' = false /\ validationMessage p' = "".
Proof.
  intros p'. subst p'.
  pose proof (handleResetSettings_stored providerMetadata t tValidationError providerId p Hmeta)
    as Hstore.
  assert (Hstate : awaited (handleResetSettings providerMetadata t providerId p) = awaited p
                   /\ timers (handleResetSettings providerMetadata t providerId p) = timers p
                   /\ isValidating (handleResetSettings providerMetadata t providerId p) = 0
                   /\ isValid (handleResetSettings providerMetadata t providerId p) = false
                   /\ validationMessage (handleResetSettings providerMetadata t providerId p)
                      = "").
  { destruct Hmeta as [descriptor Hmeta].
    unfold handleResetSettings, pageMetadata, getProviderMetadata. rewrite Hmeta.
    repeat split. }
  remember (handleResetSettings providerMetadata t providerId p) as q eqn:E. clear E.
  destruct Hstate as (Ha & Ht & Hv & Hvalid & Hmsg).
  unfold onMounted, initializeProvider, getProviderConfig. rewrite Hstore. cbv zeta.
  assert (Hsame : set_store (fun _ => store q) q = q) by now destruct q.
  rewrite Hsame.
  assert (Hkey : field providerId "apiKey" q = VStr "")
    by (unfold field; now rewrite Hstore).
  rewrite Hkey.
  remember (setField providerId "apiKey" (VStr "") q) as q2 eqn:E2.
  assert (Hq2 : providerCredentials (store q2) !! providerId
                = Some {[ "apiKey" := VStr "" ]}
                /\ awaited q2 = awaited q /\ timers q2 = timers q
                /\ isValidating q2 = isValidating q /\ isValid q2 = isValid q
                /\ validationMessage q2 = validationMessage q).
  { subst q2. unfold setField. simpl. rewrite lookup_insert_eq, Hstore. repeat split. }
  clear E2. destruct Hq2 as (Hc2 & Ha2 & Ht2 & Hv2 & Hvalid2 & Hmsg2).
  assert (Hurl : field providerId "baseUrl" q2 = VStr "")
    by (unfold field; now rewrite Hc2).
  rewrite Hurl.
  remember (setField providerId "baseUrl" (VStr "") q2) as q3 eqn:E3.
  assert (Hq3 : providerCredentials (store q3) !! providerId
                = Some {[ "apiKey" := VStr ""; "baseUrl" := VStr "" ]}
                /\ awaited q3 = awaited q2 /\ timers q3 = timers q2
                /\ isValidating q3 = isValidating q2 /\ isValid q3 = isValid q2
                /\ validationMessage q3 = validationMessage q2).
  { subst q3. unfold setField. simpl. rewrite lookup_insert_eq, Hc2. simpl.
    split; [|repeat split].
    f_equal; apply map_eq; intros key; rewrite !lookup_insert;
      repeat case_decide; congruence. }
  clear E3. destruct Hq3 as (Hc3 & Ha3 & Ht3 & Hv3 & Hvalid3 & Hmsg3).
  assert (Hkey3 : field providerId "apiKey" q3 = VStr "")
    by (unfold field; now rewrite Hc3).
  rewrite Hkey3. simpl.
  repeat split; congruence.
Qed.

(** The xAI page over a store that has a key for xAI. *)
Lemma remount_after_reset_is_blank_witness :
  let p' := onMounted offlineTable untranslated (fun error => "Validation error: " ++ error)
              "xai" (handleResetSettings offlineTable untranslated "xai" (newPage xaiStore)) in
  getProviderConfig "xai" (store p')
  = Some {[ "apiKey" := VStr ""; "baseUrl" := VStr "" ]}
  /\ awaited p' = [] /\ timers p' = []
  /\ isValidating p' = 0 /\ isValid p' = false /\ validationMessage p' = "".
Proof.
  apply (remount_after_reset_is_blank offlineTable untranslated
           (fun error => "Validation error: " ++ error) "xai" (newPage xaiStore)).
  vm_compute. eauto.
Defined.

(** ** White space other than ASCII *)

Example trim_unicode :
  trim (noBreakSpace ++ " xai-1 " ++ ideographicSpace ++ byteOrderMark) = "xai-1"
  /\ trim ideographicSpace = ""
  /\ trim (noBreakSpace ++ utf8 [226; 128; 168]%nat ++ utf8 [225; 154; 128]%nat) = ""
  /\ trim ("a" ++ noBreakSpace ++ "b") = "a" ++ noBreakSpace ++ "b"
  /\ trim (utf8 [195; 160]%nat ++ " ") = utf8 [195; 160]%nat
  /\ trim (utf8 [226; 128; 139]%nat) = utf8 [226; 128; 139]%nat.
Proof. repeat split. Qed.

(** With a key that is a no-break space the debounced function of the
    xAI page takes the clearing branch and starts no validation; with a
    stored base URL that is an ideographic space so does the one of the
    Ollama page. *)
Example debounced_clears_on_unicode_space :
  debouncedValidateConfiguration offlineTable untranslated
    (fun error => "Validation error: " ++ error) "xai"
    (set_isValidating (fun _ => 1) (newPage blankKeyStore))
  = clearValidation (newPage blankKeyStore)
  /\ page (ollamaDebouncedValidateConfiguration failingTable untranslated
             (fun error => "Validation error: " ++ error) "ollama"
             (mkOllamaPage (set_isValidating (fun _ => 1) (newPage blankOllamaUrlStore)) []))
     = clearValidation (newPage blankOllamaUrlStore).
Proof. split; vm_compute; reflexivity. Qed.

(** A thrown value that is not an [Error] is recorded as ['Unknown error']. *)
Example fetchModelsForProvider_unknown_error :
  let result := fetchModelsForProvider
                  (tableExcerpt isAbsoluteUrl_spec throwingListModels offlineFetch)
                  "ollama" seededStore in
  fst result = []
  /\ modelLoadError (snd result) !! "ollama" = Some (Some "Unknown error")
  /\ isLoadingModels (snd result) !! "ollama" = Some false.
Proof. repeat split. Qed.
